(** * book_search: price aggregation and historical merge

    A shallow embedding of [src/book_search/book_price_drop.py].

    - Python [float] is IEEE-754 binary64 and is modelled by Rocq's primitive
      [float] (same format, round-to-nearest-even), so [+], [/], [<=] and [==]
      compute exactly what the interpreter computes, NaN included.
    - [None] is modelled by [option] (in a typed row) or by the cell [VNone]
      (in a data frame).
    - A raised exception is the [Raise] outcome of a small state-and-exception
      monad; the state is the object the function mutates in place (the row
      passed to [scrape_price_from_store], the ledger passed to
      [update_historical_data]).
    - The network, the HTML parser and Python's [float()] are external: they
      are the variables of the section [Scraper]. The clock is external too:
      today's date is the variable of the section [Merge].
    - A pandas frame is modelled by its column labels and its labelled rows,
      with the operations the code calls on it ([.loc] reads and writes,
      [itertuples], [insert], column alignment) and the exceptions these
      raise. Cells are untyped: the dtype a column has in pandas is not
      modelled.
    - The two readers are modelled from the frame [pd.read_csv] returns. The
      store loop of [scrape_books] (lines 230-234) is [scrape_all_stores]:
      after each store [DataFrame.apply] builds the table anew from the rows
      returned, and a best price column that holds a number then reads NaN
      where a row held [None]. The file reads and the file write around the
      loop are not modelled. *)

From Stdlib Require Import ZArith List String Ascii Bool Lia Permutation.
From Stdlib Require Import Floats.
From Stdlib Require Import DecimalString.
Import ListNotations.

Set Warnings "-inexact-float".

Local Open Scope string_scope.
Local Open Scope Z_scope.

(** ** Exceptions and outcomes *)

Inductive exn : Type :=
| HTTPError          (* requests: raise_for_status on a 4xx/5xx response *)
| ConnectionError    (* requests: no response at all *)
| ValueError
| TypeError
| KeyError
| AttributeError
| IndexError
| ZeroDivisionError
| OverflowError.

Inductive result (A : Type) : Type :=
| Ok (a : A)
| Raise (e : exn).
Arguments Ok {A} a.
Arguments Raise {A} e.

Definition rbind {A B} (c : result A) (k : A -> result B) : result B :=
  match c with
  | Ok a => k a
  | Raise e => Raise e
  end.

(** A computation over a mutable object of type [S]: the final state is
    returned in both outcomes, since an assignment made before an exception
    is raised stays made. *)
Definition M (S A : Type) : Type := S -> S * result A.

Definition ret {S A} (a : A) : M S A := fun s => (s, Ok a).

Definition bind {S A B} (c : M S A) (k : A -> M S B) : M S B :=
  fun s =>
    match c s with
    | (s', Ok a) => k a s'
    | (s', Raise e) => (s', Raise e)
    end.

Definition get {S} : M S S := fun s => (s, Ok s).
Definition modify {S} (f : S -> S) : M S unit := fun s => (f s, Ok tt).
Definition lift {S A} (c : result A) : M S A := fun s => (s, c).

Declare Scope py_scope.
Delimit Scope py_scope with py.
Notation "x <- c ;; k" := (bind c (fun x => k))
  (at level 61, c at next level, right associativity) : py_scope.
Notation "c ;; k" := (bind c (fun _ => k))
  (at level 61, right associativity) : py_scope.
Notation "x <~ c ;; k" := (rbind c (fun x => k))
  (at level 61, c at next level, right associativity) : py_scope.
Local Open Scope py_scope.

(** ** Python numerics *)

(** The rounding margin of the source, the literal [0.02]. *)
Definition round_margin : float := 0.02%float.

(** Nearest integer to [m * 2^e], ties to the even integer. *)
Definition round_half_even (m : positive) (e : Z) : Z :=
  if 0 <=? e then Z.pos m * 2 ^ e
  else
    let d := 2 ^ (- e) in
    let q := Z.pos m / d in
    let r := Z.pos m mod d in
    match 2 * r ?= d with
    | Lt => q
    | Gt => q + 1
    | Eq => if Z.even q then q else q + 1
    end.

(** [round(x)] with one argument: an [int], half to even; [OverflowError] on
    an infinity and [ValueError] on NaN. *)
Definition py_round (x : float) : result Z :=
  match Prim2SF x with
  | S754_zero _ => Ok 0
  | S754_infinity _ => Raise OverflowError
  | S754_nan => Raise ValueError
  | S754_finite s m e =>
      Ok (if s then - round_half_even m e else round_half_even m e)
  end.

(** [x / y] on floats: [ZeroDivisionError] when [y == 0]. *)
Definition py_truediv (x y : float) : result float :=
  if PrimFloat.eqb y 0%float then Raise ZeroDivisionError
  else Ok (x / y)%float.

(** [float(n)] for an integer within the binary64 range. *)
Definition float_of_Z (n : Z) : float :=
  SF2Prim (binary_normalize prec emax n 0 false).

(** ** Python strings *)

Fixpoint starts_with (p s : string) : bool :=
  match p, s with
  | EmptyString, _ => true
  | String a p', String b s' => Ascii.eqb a b && starts_with p' s'
  | String _ _, EmptyString => false
  end.

(** [skip] characters of a match that is being consumed are dropped; outside
    a match every position is tried, left to right, without overlap. *)
Fixpoint replace_from (skip : nat) (old new s : string) : string :=
  match s with
  | EmptyString => EmptyString
  | String c s' =>
      match skip with
      | S k => replace_from k old new s'
      | O =>
          if starts_with old s
          then new ++ replace_from (String.length old - 1) old new s'
          else String c (replace_from O old new s')
      end
  end.

Fixpoint intersperse (new s : string) : string :=
  match s with
  | EmptyString => new
  | String c s' => new ++ String c (intersperse new s')
  end.

(** [s.replace(old, new)]. *)
Definition replace (old new s : string) : string :=
  match old with
  | EmptyString => intersperse new s
  | String _ _ => replace_from O old new s
  end.

(** ** Book rows

    One row of the table built by [read_books]: the catalog fields the code
    reads, and the three working fields initialised to [None]. *)
Record Row : Type := mkRow {
  isbn : string;
  title : string;
  default_price : float;
  best_price : option float;
  best_store : option string;
  discount : option Z
}.

Definition set_best_price (v : option float) (r : Row) : Row :=
  mkRow (isbn r) (title r) (default_price r) v (best_store r) (discount r).
Definition set_discount (v : option Z) (r : Row) : Row :=
  mkRow (isbn r) (title r) (default_price r) (best_price r) (best_store r) v.
Definition set_best_store (v : option string) (r : Row) : Row :=
  mkRow (isbn r) (title r) (default_price r) (best_price r) v (discount r).

(** The row [read_books] makes of a catalog line. *)
Definition read_books_row (i t : string) (d : float) : Row :=
  mkRow i t d None None None.

(** ** HTTP responses *)
Record Response : Type := mkResponse {
  status_code : Z;
  text : string
}.

(** [response.raise_for_status()]: [HTTPError] for a client (4xx) or server
    (5xx) error status. *)
Definition raise_for_status (r : Response) : result unit :=
  if (400 <=? status_code r) && (status_code r <? 600)
  then Raise HTTPError else Ok tt.

Definition STORE_MAIN_URLS : list (string * string) :=
  [ ("Almedina", "https://www.almedina.net/catalogsearch/result/?q=");
    ("Leya", "https://www.leyaonline.com/pt/pesquisa/pesquisa_ajax.php");
    ("Presenca", "https://www.presenca.pt/search?q=") ].

Fixpoint assoc {A} (k : string) (l : list (string * A)) : option A :=
  match l with
  | [] => None
  | (k', v) :: l' => if String.eqb k k' then Some v else assoc k l'
  end.

(** [df.apply(f, axis=1)], row by row: the rows [f] returns, or the first
    exception. *)
Fixpoint apply_rows (f : M Row unit) (df : list Row) : result (list Row) :=
  match df with
  | [] => Ok []
  | row :: rest =>
      match f row with
      | (row', Ok _) => rows' <~ apply_rows f rest ;; Ok (row' :: rows')
      | (_, Raise e) => Raise e
      end
  end.

Definition has_best_price (r : Row) : bool :=
  match best_price r with
  | Some _ => true
  | None => false
  end.

(** The column types of the table [apply] returns are inferred from the
    values: a best price column in which some row holds a number is a float
    column, where [None] reads NaN; a column of [None] only stays as it is.
    The best store column holds strings and keeps its [None]. The discount
    column is inferred like the best price one; the code reads no discount,
    and the row model keeps its [None]. *)
Definition infer_best_price (df : list Row) : list Row :=
  if existsb has_best_price df then
    map (fun r => if has_best_price r then r
                  else set_best_price (Some nan) r) df
  else df.

Section Scraper.

(** [requests.get(url, headers={})] *)
Variable requests_get : string -> result Response.
(** [requests.post(url, data=form)] *)
Variable requests_post : string -> list (string * string) -> result Response.
(** [BeautifulSoup(text, "html.parser").find(tag, {attr: value})]: the
    [.text] of the first matching element, if there is one. *)
Variable html_find : string -> string -> string * string -> option string.
(** [float(s)]: [None] stands for the [ValueError] of an unparsable text. *)
Variable float_of_string : string -> option float.

Definition py_float (s : string) : result float :=
  match float_of_string s with
  | Some x => Ok x
  | None => Raise ValueError
  end.

(** The returned parse tree is represented by the text it was parsed
    from; [html_find] queries it. *)
Definition get_html_from_url (url : string) : result string :=
  response <~ requests_get url ;;
  _ <~ raise_for_status response ;;
  Ok (text response).

Definition get_price_almedina (store_url : string) (book : Row)
  : result (option float) :=
  let url := store_url ++ isbn book in
  html <~ get_html_from_url url ;;
  match html_find html "div" ("class", "message notice") with
  | Some _ => Ok None
  | None =>
      match html_find html "span" ("data-price-type", "finalPrice") with
      | Some t =>
          let price := replace " " "" (replace "€" "" (replace "," "." t)) in
          x <~ py_float price ;;
          Ok (Some x)
      | None => Ok None
      end
  end.

Definition get_price_leya (store_url : string) (book : Row)
  : result (option float) :=
  let form_data :=
    [ ("chave", isbn book); ("pagina", "1"); ("num_prod_pag", "15");
      ("ordenar", "0"); ("listagem", "2"); ("categorias", "0");
      ("editoras", "0") ] in
  response <~ requests_post store_url form_data ;;
  let html := text response in
  match html_find html "div" ("class", "right") with
  | Some t =>
      x <~ py_float
             (replace " " ""
                (replace "€" ""
                   (replace "," "." (replace "&#8364;" "" t)))) ;;
      Ok (Some x)
  | None => Ok None
  end.

Definition get_price_presenca (store_url : string) (book : Row)
  : result (option float) :=
  let url := store_url ++ isbn book in
  html <~ get_html_from_url url ;;
  match html_find html "span" ("style", "font-size:36px;font-weight:600") with
  | Some t =>
      x <~ py_float
             (replace "&euro;" ""
                (replace " " ""
                   (replace "€" "" (replace "," "." t)))) ;;
      Ok (Some x)
  | None => Ok None
  end.

Definition price_functions
  : list (string * (string -> Row -> result (option float))) :=
  [ ("Almedina", get_price_almedina);
    ("Leya", get_price_leya);
    ("Presenca", get_price_presenca) ].

Definition get_price (store store_url : string) (book : Row)
  : result (option float) :=
  match assoc store price_functions with
  | None => Raise ValueError
  | Some f => f store_url book
  end.

(** The test of line 202-203: no best price yet, or the scraped price is
    at most the best price plus the margin. *)
Definition within_margin (scraped_price : float) (best : option float) : bool :=
  match best with
  | None => true
  | Some p => PrimFloat.leb scraped_price (p + round_margin)%float
  end.

(** [scraped_price == row["best_price"]], on the row as it is when line
    209 runs. *)
Definition equals_best_price (scraped_price : float) (row : Row) : bool :=
  match best_price row with
  | Some p => PrimFloat.eqb scraped_price p
  | None => false
  end.

Definition scrape_price_from_store (store store_url : string) : M Row unit :=
  row <- get ;;
  scraped_price <- lift (get_price store store_url row) ;;
  match scraped_price with
  | None => ret tt
  | Some q =>
      row <- get ;;
      if within_margin q (best_price row) then
        modify (set_best_price (Some q)) ;;
        row <- get ;;
        ratio <- lift (py_truediv q (default_price row)) ;;
        d <- lift (py_round ((1 - ratio) * 100)%float) ;;
        modify (set_discount (Some d)) ;;
        (* if there are several stores with same price *)
        row <- get ;;
        match best_store row with
        | Some stores =>
            if equals_best_price q row
            then modify (set_best_store (Some (stores ++ "," ++ store)))
            else modify (set_best_store (Some store))
        | None => modify (set_best_store (Some store))
        end
      else ret tt
  end.

(** Calls of [scrape_price_from_store] in succession on one row object,
    for a list of stores. This is not the loop of [scrape_books], which
    builds the table anew between two stores: see [scrape_all_stores]. *)
Fixpoint scrape_stores (stores : list (string * string)) : M Row unit :=
  match stores with
  | [] => ret tt
  | (store, store_url) :: rest =>
      scrape_price_from_store store store_url ;;
      scrape_stores rest
  end.

(** [df_books.apply(scrape_price_from_store, args=(store, store_url), axis=1)]
    (lines 232-234): the function is called on each row in turn, an exception
    ends the pass, and the table is built anew from the rows returned. *)
Definition scrape_store (store store_url : string) (df_books : list Row)
  : result (list Row) :=
  returned <~ apply_rows (scrape_price_from_store store store_url) df_books ;;
  Ok (infer_best_price returned).

(** The loop of lines 230-234 over the stores, on the whole table. *)
Fixpoint scrape_all_stores (stores : list (string * string))
    (df_books : list Row) : result (list Row) :=
  match stores with
  | [] => Ok df_books
  | (store, store_url) :: rest =>
      df_books <~ scrape_store store store_url df_books ;;
      scrape_all_stores rest df_books
  end.

End Scraper.

(** ** Data frames

    A frame is its column labels, in order, and its rows, in order; a row is
    its index label and its cells by column label. A label without a cell in
    a row reads as NaN, which is how pandas fills a cell nobody wrote. *)

Inductive cell : Type :=
| VNone
| VFloat (x : float)
| VInt (n : Z)
| VStr (s : string).

Definition NaN : cell := VFloat nan.

Definition cells : Type := list (string * cell).

Record DataFrame : Type := mkFrame {
  columns : list string;
  rows : list (string * cells)
}.

Definition mem (c : string) (l : list string) : bool :=
  existsb (String.eqb c) l.

Definition lookup (c : string) (r : cells) : cell :=
  match assoc c r with
  | Some v => v
  | None => NaN
  end.

Definition labels (df : DataFrame) : list string := map fst (rows df).

(** The cells of the rows labelled [k], column [c]. *)
Definition matching (k c : string) (df : DataFrame) : list cell :=
  map (fun r => lookup c (snd r))
      (filter (fun r => String.eqb k (fst r)) (rows df)).

(** The frame as a table: each row's cells in column order. *)
Definition to_table (df : DataFrame) : list (string * list cell) :=
  map (fun r => (fst r, map (fun c => lookup c (snd r)) (columns df))) (rows df).

(** [df.loc[k] = value] for a label [k] that is not in the index and a tuple
    [value] (a named tuple is a tuple): the row is appended, the tuple is
    laid on the columns by position, and it must have as many elements as
    there are columns. *)
Definition loc_setitem_row (k : string) (value : list cell) (df : DataFrame)
  : result DataFrame :=
  if Nat.eqb (List.length value) (List.length (columns df))
  then Ok (mkFrame (columns df) (rows df ++ [(k, combine (columns df) value)]))
  else Raise ValueError.

(** [df.loc[k, c]]: the cells found; [KeyError] for an unknown column or
    label. More than one cell is a Series. *)
Definition loc_getitem (k c : string) (df : DataFrame) : result (list cell) :=
  if mem c (columns df) then
    match matching k c df with
    | [] => Raise KeyError
    | found => Ok found
    end
  else Raise KeyError.

(** [df.loc[k, c] = v] for a label [k] of the index: every row labelled [k]
    gets the cell; an unknown column is added last. *)
Definition loc_setitem (k c : string) (v : cell) (df : DataFrame) : DataFrame :=
  mkFrame
    (if mem c (columns df) then columns df else columns df ++ [c])
    (map (fun r => if String.eqb k (fst r) then (fst r, (c, v) :: snd r) else r)
         (rows df)).

(** [df[c]]: the column as a Series, a cell per index label. *)
Definition getitem (c : string) (df : DataFrame) : result (list (string * cell)) :=
  if mem c (columns df)
  then Ok (map (fun r => (fst r, lookup c (snd r))) (rows df))
  else Raise KeyError.

Fixpoint has_duplicates (l : list string) : bool :=
  match l with
  | [] => false
  | x :: l' => mem x l' || has_duplicates l'
  end.

Fixpoint list_eqb (l1 l2 : list string) : bool :=
  match l1, l2 with
  | [], [] => true
  | x :: l1', y :: l2' => String.eqb x y && list_eqb l1' l2'
  | _, _ => false
  end.

(** A Series assigned as a column is aligned on the frame's index: taken as
    it is when the two indexes are equal, otherwise looked up label by label
    (NaN for a label the Series does not have), which a Series with a
    repeated label refuses. *)
Definition align (value : list (string * cell)) (index : list string)
  : result (list cell) :=
  if list_eqb (map fst value) index then Ok (map snd value)
  else if has_duplicates (map fst value) then Raise ValueError
  else Ok (map (fun k => lookup k value) index).

Fixpoint add_column (c : string) (rs : list (string * cells)) (vs : list cell)
  : list (string * cells) :=
  match rs with
  | [] => []
  | r :: rs' =>
      (fst r, (c, hd NaN vs) :: snd r) :: add_column c rs' (tl vs)
  end.

(** [df.insert(loc, column, value)] for a Series [value]: an existing label
    is refused, the Series is aligned on the index, and [loc] must be at most
    the number of columns. *)
Definition insert (loc : nat) (column : string) (value : list (string * cell))
    (df : DataFrame) : result DataFrame :=
  if mem column (columns df) then Raise ValueError
  else
    vs <~ align value (labels df) ;;
    if Nat.ltb (List.length (columns df)) loc then Raise IndexError
    else
      Ok (mkFrame (firstn loc (columns df) ++ column :: skipn loc (columns df))
                  (add_column column (rows df) vs)).

(** ** Historical merge *)

Definition is_number (c : cell) : bool :=
  match c with
  | VFloat _ | VInt _ => true
  | VNone | VStr _ => false
  end.

(** [c + 0.02] *)
Definition add_margin (c : cell) : result float :=
  match c with
  | VFloat x => Ok (x + round_margin)%float
  | VInt n => Ok (float_of_Z n + round_margin)%float
  | VNone | VStr _ => Raise TypeError
  end.

(** [b <= s] *)
Definition cell_le (b : cell) (s : float) : result bool :=
  match b with
  | VFloat x => Ok (PrimFloat.leb x s)
  | VInt n => Ok (PrimFloat.leb (float_of_Z n) s)
  | VNone | VStr _ => Raise TypeError
  end.

(** The test of lines 164-166, [b <= (found + 0.02)], as an [if] condition.
    With several cells found the sum and the comparison are element-wise
    and the truth value of the resulting Series is a [ValueError]. *)
Definition qualifies (b : cell) (found : list cell) : result bool :=
  match found with
  | [c] => s <~ add_margin c ;; cell_le b s
  | _ =>
      if forallb is_number found && is_number b
      then Raise ValueError else Raise TypeError
  end.

(** [book_series.name] on the named tuple of a row of [df_books]. *)
Definition getattr (name : string) (book_columns : list string) (r : cells)
  : result cell :=
  if mem name book_columns then Ok (lookup name r) else Raise AttributeError.

Definition is_None (c : cell) : bool :=
  match c with
  | VNone => true
  | _ => false
  end.

Section Merge.

(** [datetime.today().strftime("%Y-%m-%d")] *)
Variable today_date : string.

(** The body of the loop of lines 157-174 for one tuple of
    [df_books.itertuples()]: the index label followed by the row's cells in
    column order, read by field name. The state is [df_history]. The two
    attribute reads before the writes are those of the log message. *)
Definition merge_book (book_columns : list string) (book : string * cells)
  : M DataFrame unit :=
  let Index := fst book in
  let attr name := getattr name book_columns (snd book) in
  let book_series :=
    VStr Index :: map (fun c => lookup c (snd book)) book_columns in
  df_history <- get ;;
  (if mem Index (labels df_history) then ret tt
   else
     df <- lift (loc_setitem_row Index book_series df_history) ;;
     modify (fun _ => df)) ;;
  today_best <- lift (attr "best_price") ;;
  if is_None today_best then ret tt
  else
    df_history <- get ;;
    found <- lift (loc_getitem Index "best_price" df_history) ;;
    better <- lift (qualifies today_best found) ;;
    if (better : bool) then
      _ <- lift (attr "title") ;;
      _ <- lift (attr "best_store") ;;
      modify (loc_setitem Index "best_price" today_best) ;;
      today_store <- lift (attr "best_store") ;;
      modify (loc_setitem Index "best_store" today_store) ;;
      today_discount <- lift (attr "discount") ;;
      modify (loc_setitem Index "discount" today_discount) ;;
      modify (loc_setitem Index "best_date" (VStr today_date))
    else ret tt.

Fixpoint merge_books (book_columns : list string) (books : list (string * cells))
  : M DataFrame unit :=
  match books with
  | [] => ret tt
  | book :: rest =>
      merge_book book_columns book ;;
      merge_books book_columns rest
  end.

(** The state is [df_history], which the function updates in place and
    returns. *)
Definition update_historical_data (df_books : DataFrame) : M DataFrame unit :=
  merge_books (columns df_books) (rows df_books) ;;
  df_history <- get ;;
  if mem today_date (columns df_history) then ret tt
  else
    value <- lift (getitem "best_price" df_books) ;;
    df <- lift (insert 9 today_date value df_history) ;;
    modify (fun _ => df).

End Merge.

(** ** Reading the tables

    [pd.read_csv] is external: the readers are modelled from the frame it
    returns, whose own index is replaced. [str_of] is Python's [str] on the
    value of a cell, which [astype(str)] applies to the identifiers. *)

(** [df[c] = v] for a scalar [v]: every row gets the cell; an unknown column
    is added last. *)
Definition setitem_scalar (c : string) (v : cell) (df : DataFrame) : DataFrame :=
  mkFrame
    (if mem c (columns df) then columns df else columns df ++ [c])
    (map (fun r => (fst r, (c, v) :: snd r)) (rows df)).

Section Readers.

Variable str_of : cell -> string.

(** Lines 32-35 on the parsed file: the identifiers become strings and
    label the rows, the column stays. *)
Definition read_historical_data (csv : DataFrame) : result DataFrame :=
  if mem "isbn" (columns csv) then
    Ok (mkFrame (columns csv)
          (map (fun r =>
                  let i := str_of (lookup "isbn" (snd r)) in
                  (i, ("isbn", VStr i) :: snd r))
               (rows csv)))
  else Raise KeyError.

(** Lines 19-27 on the parsed file: the same two steps, then the three
    working columns are set to [None]. *)
Definition read_books (csv : DataFrame) : result DataFrame :=
  if mem "isbn" (columns csv) then
    let df :=
      mkFrame (columns csv)
        (map (fun r =>
                let i := str_of (lookup "isbn" (snd r)) in
                (i, ("isbn", VStr i) :: snd r))
             (rows csv)) in
    Ok (setitem_scalar "discount" VNone
          (setitem_scalar "best_store" VNone
             (setitem_scalar "best_price" VNone df)))
  else Raise KeyError.

End Readers.

(** ** A finite web, for running the code

    A page is reached by its address, answers with a status, and holds the
    elements a query can find. The response text is the page's address, so
    that [web_find] can tell which page it is asked about. A form post to
    [url] with key [chave] reaches the address [url?chave=]. *)

Record Page : Type := mkPage {
  address : string;
  status : Z;
  elements : list (string * (string * string) * string)
}.

Fixpoint find_page (web : list Page) (a : string) : option Page :=
  match web with
  | [] => None
  | p :: web' => if String.eqb a (address p) then Some p else find_page web' a
  end.

Fixpoint find_element (tag : string) (attr : string * string)
    (els : list (string * (string * string) * string)) : option string :=
  match els with
  | [] => None
  | (t, (a, v), txt) :: els' =>
      if String.eqb tag t && String.eqb (fst attr) a && String.eqb (snd attr) v
      then Some txt else find_element tag attr els'
  end.

Definition web_get (web : list Page) (url : string) : result Response :=
  match find_page web url with
  | Some p => Ok (mkResponse (status p) (address p))
  | None => Raise ConnectionError
  end.

Definition web_post (web : list Page) (url : string)
    (form : list (string * string)) : result Response :=
  match assoc "chave" form with
  | Some k => web_get web (url ++ "?chave=" ++ k)
  | None => Raise ConnectionError
  end.

Definition web_find (web : list Page) (txt tag : string) (attr : string * string)
  : option string :=
  match find_page web txt with
  | Some p => find_element tag attr (elements p)
  | None => None
  end.

(** [float()] on plain decimal texts: digits with at most one point. The
    quotient of two exactly represented integers is rounded once, as the
    text's value is. *)
Fixpoint read_decimal (seen_point : bool) (ndigits : nat) (num scale : Z)
    (s : string) : option (Z * Z) :=
  match s with
  | EmptyString => match ndigits with O => None | S _ => Some (num, scale) end
  | String c s' =>
      let n := Z.of_nat (nat_of_ascii c) in
      if Ascii.eqb c "."%char then
        if seen_point then None
        else read_decimal true ndigits num scale s'
      else if (48 <=? n) && (n <=? 57) then
        read_decimal seen_point (S ndigits) (10 * num + (n - 48))
                     (if seen_point then 10 * scale else scale) s'
      else None
  end.

Definition decimal_float (s : string) : option float :=
  match read_decimal false O 0 1 s with
  | Some (num, scale) => Some (float_of_Z num / float_of_Z scale)%float
  | None => None
  end.

Definition web_get_price (web : list Page) :=
  get_price (web_get web) (web_post web) (web_find web) decimal_float.
Definition web_scrape (web : list Page) :=
  scrape_price_from_store (web_get web) (web_post web) (web_find web) decimal_float.
Definition web_scrape_stores (web : list Page) :=
  scrape_stores (web_get web) (web_post web) (web_find web) decimal_float.
Definition web_scrape_all_stores (web : list Page) :=
  scrape_all_stores (web_get web) (web_post web) (web_find web) decimal_float.

Definition almedina_url : string :=
  "https://www.almedina.net/catalogsearch/result/?q=".
Definition leya_url : string :=
  "https://www.leyaonline.com/pt/pesquisa/pesquisa_ajax.php".
Definition presenca_url : string := "https://www.presenca.pt/search?q=".

(** Pages on which a store lists the book [i] at the price text [p]. *)
Definition almedina_page (i p : string) : Page :=
  mkPage (almedina_url ++ i) 200
         [("span", ("data-price-type", "finalPrice"), p)].
Definition presenca_page (i p : string) : Page :=
  mkPage (presenca_url ++ i) 200
         [("span", ("style", "font-size:36px;font-weight:600"), p)].
Definition leya_page (i : string) (code : Z) (p : string) : Page :=
  mkPage (leya_url ++ "?chave=" ++ i) code [("div", ("class", "right"), p)].

(** ** Vocabulary of the properties *)

(** The discount of line 206 for a scraped price and a default price. *)
Definition discount_of (q d : float) : result Z :=
  ratio <~ py_truediv q d ;; py_round ((1 - ratio) * 100)%float.

(** The store name(s) line 209-212 writes, given the best store read there. *)
Definition store_written (q : float) (old : option string) (store : string)
  : string :=
  match old with
  | Some stores =>
      if PrimFloat.eqb q q then stores ++ "," ++ store else store
  | None => store
  end.

(** [q] is the quote [m], or loses to it by more than the margin: [m] is
    accepted over [q] and [q] is not accepted over [m]. *)
Definition yields_to (m q : float) : Prop :=
  q = m \/
  (PrimFloat.leb m (q + round_margin)%float = true /\
   PrimFloat.leb q (m + round_margin)%float = false).

(** What a store answers for the book of [row]: nothing, or a quote whose
    discount can be computed and that yields to [m]. *)
Definition answers_below (price : string -> string -> Row -> result (option float))
    (row : Row) (m : float) (su : string * string) : Prop :=
  price (fst su) (snd su) row = Ok None \/
  exists q,
    price (fst su) (snd su) row = Ok (Some q) /\
    (exists d, discount_of q (default_price row) = Ok d) /\
    yields_to m q.

Definition same_book (row r : Row) : Prop :=
  isbn r = isbn row /\ default_price r = default_price row.

Definition best_yields_to (m : float) (r : Row) : Prop :=
  best_price r = None \/ exists p, best_price r = Some p /\ yields_to m p.

(** A client or server error status. *)
Definition error_status (r : Response) : Prop :=
  400 <= status_code r < 600.

Definition running_best_fields : list string :=
  ["best_price"; "best_store"; "discount"; "best_date"].

(** The ledger has the four running-best columns. *)
Definition ledger_schema (df : DataFrame) : bool :=
  forallb (fun c => mem c (columns df)) running_best_fields.

(** The cells lines 171-174 write on a ledger row, from the book's. *)
Definition overwrite_row (today_date : string) (b r : cells) : cells :=
  ("best_date", VStr today_date)
    :: ("discount", lookup "discount" b)
    :: ("best_store", lookup "best_store" b)
    :: ("best_price", lookup "best_price" b)
    :: r.

(** What the loop body does to the ledger row of the book, when it does not
    raise: nothing for an absent or non-qualifying price, the four writes
    otherwise. *)
Definition merge_row (today_date : string) (b r : cells) : cells :=
  if is_None (lookup "best_price" b) then r
  else
    match qualifies (lookup "best_price" b) [lookup "best_price" r] with
    | Ok true => overwrite_row today_date b r
    | _ => r
    end.

Definition merged_row (today_date k : string) (books : list (string * cells))
    (r : cells) : cells :=
  fold_left
    (fun r book =>
       if String.eqb (fst book) k then merge_row today_date (snd book) r else r)
    books r.

(** The columns once the date column is inserted at position 9. *)
Definition with_date_column (today_date : string) (cols : list string)
  : list string :=
  firstn 9 cols ++ today_date :: skipn 9 cols.

(** [c] occurs in [s]. *)
Fixpoint contains_char (c : ascii) (s : string) : bool :=
  match s with
  | EmptyString => false
  | String a s' => Ascii.eqb c a || contains_char c s'
  end.

(** The form the Leya adapter posts for the identifier [i]. *)
Definition leya_form (i : string) : list (string * string) :=
  [ ("chave", i); ("pagina", "1"); ("num_prod_pag", "15");
    ("ordenar", "0"); ("listagem", "2"); ("categorias", "0");
    ("editoras", "0") ].

(** Some store of the list quotes [q] for the book of [row]. *)
Definition quoted_by (price : string -> string -> Row -> result (option float))
    (stores : list (string * string)) (row : Row) (q : float) : Prop :=
  exists su, In su stores /\ price (fst su) (snd su) row = Ok (Some q).


(** The labels of [l] that [seen] does not have, each once, in order. *)
Fixpoint new_labels (seen l : list string) : list string :=
  match l with
  | [] => []
  | k :: l' =>
      if mem k seen then new_labels seen l'
      else k :: new_labels (seen ++ [k]) l'
  end.

(** The ledger once lines 171-174 have run for the label [k]. *)
Definition overwritten (today_date k : string) (b : cells) (df : DataFrame)
  : DataFrame :=
  loc_setitem k "best_date" (VStr today_date)
    (loc_setitem k "discount" (lookup "discount" b)
       (loc_setitem k "best_store" (lookup "best_store" b)
          (loc_setitem k "best_price" (lookup "best_price" b) df))).

(** Every store of the list returns a quote for the book of [row]. *)
Definition listed_everywhere
    (price : string -> string -> Row -> result (option float))
    (stores : list (string * string)) (row : Row) : Prop :=
  forall su, In su stores -> exists q, price (fst su) (snd su) row = Ok (Some q).


(** ** Data for the runs *)

Definition Almedina : string * string := ("Almedina", almedina_url).
Definition Leya : string * string := ("Leya", leya_url).
Definition Presenca : string * string := ("Presenca", presenca_url).

(** A catalog book of default price 20.00, before any store is asked. *)
Definition fresh_book : Row := read_books_row "9789720000000" "Os Maias" 20.



Definition web_9_99_twice : list Page :=
  [ almedina_page "9789720000000" "9,99 €";
    presenca_page "9789720000000" "9,99 €" ].

Definition web_9_99_then_9_97 : list Page :=
  [ almedina_page "9789720000000" "9,99 €";
    presenca_page "9789720000000" "9,97 €" ].

Definition web_10_00_and_10_02 : list Page :=
  [ almedina_page "9789720000000" "10,00 €";
    presenca_page "9789720000000" "10,02 €" ].

Definition web_10_00_and_10_05 : list Page :=
  [ almedina_page "9789720000000" "10,00 €";
    mkPage (leya_url ++ "?chave=9789720000000") 200 [];
    presenca_page "9789720000000" "10,05 €" ].

Definition web_15_00 : list Page :=
  [ almedina_page "9789720000000" "15,00 €" ].

(** Error responses: Leya answers 500 with a price in the body for one book
    and 503 with an empty body for another; Almedina and Presenca answer
    500 with a price in the body. *)
Definition web_errors : list Page :=
  [ leya_page "9789720000000" 500 "12,50 €";
    mkPage (leya_url ++ "?chave=9789720000001") 503 [];
    mkPage (almedina_url ++ "9789720000000") 500
           [("span", ("data-price-type", "finalPrice"), "12,50 €")];
    mkPage (presenca_url ++ "9789720000000") 500
           [("span", ("style", "font-size:36px;font-weight:600"), "12,50 €")] ].

Definition other_book : Row := read_books_row "9789720000001" "Mensagem" 12.

(** A frame from a table: the cells of each row, in column order. *)
Definition frame_of (cols : list string) (table : list (string * list cell))
  : DataFrame :=
  mkFrame cols (map (fun row => (fst row, combine cols (snd row))) table).

Definition catalog_columns : list string :=
  ["isbn"; "title"; "author"; "publisher"; "default_price";
   "best_price"; "best_store"; "discount"].

Definition ledger_columns : list string :=
  ["isbn"; "title"; "author"; "publisher"; "default_price";
   "best_price"; "best_store"; "discount"; "best_date"].

(** A ledger of two books, before its first date column. *)
Definition ledger_two_books : DataFrame :=
  frame_of ledger_columns
    [ ("9789720000000",
       [VStr "9789720000000"; VStr "Os Maias"; VStr "Eca de Queiros";
        VStr "Livros do Brasil"; VFloat 20; VFloat 10; VStr "Leya"; VInt 50;
        VStr "2024-03-01"]);
      ("9789720000002",
       [VStr "9789720000002"; VStr "Mensagem"; VStr "Fernando Pessoa";
        VStr "Assirio e Alvim"; VFloat 12; VFloat 11; VStr "Almedina"; VInt 8;
        VStr "2024-02-27"]) ].

(** A ledger that has been through a run, on 2024-03-01: it has a date
    column. *)
Definition ledger_with_date : DataFrame :=
  frame_of (ledger_columns ++ ["2024-03-01"])
    [ ("9789720000000",
       [VStr "9789720000000"; VStr "Os Maias"; VStr "Eca de Queiros";
        VStr "Livros do Brasil"; VFloat 20; VFloat 10; VStr "Leya"; VInt 50;
        VStr "2024-03-01"; VFloat 10]) ].

(** Today's table: the first book at 9.00, then at 8.00. *)
Definition books_at_9 : DataFrame :=
  frame_of catalog_columns
    [ ("9789720000000",
       [VStr "9789720000000"; VStr "Os Maias"; VStr "Eca de Queiros";
        VStr "Livros do Brasil"; VFloat 20; VFloat 9; VStr "Almedina";
        VInt 55]) ].

Definition books_at_8 : DataFrame :=
  frame_of catalog_columns
    [ ("9789720000000",
       [VStr "9789720000000"; VStr "Os Maias"; VStr "Eca de Queiros";
        VStr "Livros do Brasil"; VFloat 20; VFloat 8; VStr "Presenca";
        VInt 60]) ].

(** Today's table with a book the ledger does not have, quoted at 9.99. *)
Definition books_with_new_book : DataFrame :=
  frame_of catalog_columns
    [ ("9789720000001",
       [VStr "9789720000001"; VStr "A Cidade e as Serras";
        VStr "Eca de Queiros"; VStr "Livros do Brasil"; VFloat 12;
        VFloat 9.99; VStr "Almedina"; VInt 17]) ].

(** The same new book when no store has it. *)
Definition books_with_unquoted_new_book : DataFrame :=
  frame_of catalog_columns
    [ ("9789720000001",
       [VStr "9789720000001"; VStr "A Cidade e as Serras";
        VStr "Eca de Queiros"; VStr "Livros do Brasil"; VFloat 12;
        VNone; VNone; VNone]) ].

Definition march_2 : string := "2024-03-02".

Definition ledger_after_first_run : DataFrame :=
  fst (update_historical_data march_2 books_at_9 ledger_two_books).

Definition ledger_after_second_run : DataFrame :=
  fst (update_historical_data march_2 books_at_8 ledger_after_first_run).


(** Today's table when no store has the first book. *)
Definition books_unquoted : DataFrame :=
  frame_of catalog_columns
    [ ("9789720000000",
       [VStr "9789720000000"; VStr "Os Maias"; VStr "Eca de Queiros";
        VStr "Livros do Brasil"; VFloat 20; VNone; VNone; VNone]) ].

(** [str] on the identifiers of the examples: a string is itself and an
    integer is its decimal digits; no other cell is an identifier here. *)
Definition str_of_identifier (c : cell) : string :=
  match c with
  | VStr s => s
  | VInt n => NilZero.string_of_int (Z.to_int n)
  | VNone => "None"
  | VFloat _ => "nan"
  end.

(** A catalog file as [pd.read_csv] returns it: integer identifiers, rows
    labelled by their position, and a stray "discount" column. *)
Definition catalog_csv : DataFrame :=
  frame_of ["isbn"; "title"; "default_price"; "discount"]
    [ ("0", [VInt 9789720000000; VStr "Os Maias"; VFloat 20; VInt 10]);
      ("1", [VInt 9789720000002; VStr "Mensagem"; VFloat 12; VInt 0]) ].

(** The ledger file of [ledger_two_books] as [pd.read_csv] returns it. *)
Definition ledger_csv : DataFrame :=
  frame_of ledger_columns
    [ ("0",
       [VInt 9789720000000; VStr "Os Maias"; VStr "Eca de Queiros";
        VStr "Livros do Brasil"; VFloat 20; VFloat 10; VStr "Leya"; VInt 50;
        VStr "2024-03-01"]) ].

(** A catalog of two books, and a web on which Almedina lists the first at
    10.00 and does not have the second, and Presenca lists them at 10.05 and
    11.00. *)
Definition catalog_two_books : list Row := [fresh_book; other_book].

Definition web_two_books : list Page :=
  [ almedina_page "9789720000000" "10,00 €";
    mkPage (almedina_url ++ "9789720000001") 200
           [("div", ("class", "message notice"), "Sem resultados")];
    presenca_page "9789720000000" "10,05 €";
    presenca_page "9789720000001" "11,00 €" ].

(** * Properties *)

(** ** The quote resolver *)

Section ScraperFacts.

Variable requests_get : string -> result Response.
Variable requests_post : string -> list (string * string) -> result Response.
Variable html_find : string -> string -> string * string -> option string.
Variable float_of_string : string -> option float.

Local Abbreviation price :=
  (get_price requests_get requests_post html_find float_of_string).
Local Abbreviation scrape :=
  (scrape_price_from_store requests_get requests_post html_find float_of_string).
(** What one call does to the row, path by path. *)
Lemma scrape_price_from_store_unfold (store store_url : string) (row : Row) :
  scrape store store_url row =
  match price store store_url row with
  | Raise e => (row, Raise e)
  | Ok None => (row, Ok tt)
  | Ok (Some q) =>
      if within_margin q (best_price row) then
        match discount_of q (default_price row) with
        | Raise e => (set_best_price (Some q) row, Raise e)
        | Ok d =>
            (mkRow (isbn row) (title row) (default_price row) (Some q)
                   (Some (store_written q (best_store row) store)) (Some d),
             Ok tt)
        end
      else (row, Ok tt)
  end.
Proof.
  unfold scrape_price_from_store, bind, get, lift, discount_of.
  destruct (get_price _ _ _ _ store store_url row) as [[q|]|e]; try reflexivity.
  destruct (within_margin q (best_price row)); try reflexivity.
  cbn.
  destruct (py_truediv q (default_price row)) as [ratio|e]; try reflexivity.
  cbn.
  destruct (py_round _) as [d|e]; try reflexivity.
  cbn. unfold store_written, equals_best_price. cbn.
  destruct (best_store row) as [s|]; try reflexivity.
  destruct (PrimFloat.eqb q q); reflexivity.
Qed.

Lemma scrape_keeps_catalog_fields (store store_url : string) (row : Row) :
  isbn (fst (scrape store store_url row)) = isbn row /\
  default_price (fst (scrape store store_url row)) = default_price row.
Proof.
  rewrite scrape_price_from_store_unfold.
  destruct (price store store_url row) as [[q|]|e]; cbn; auto.
  destruct (within_margin q (best_price row)); cbn; auto.
  destruct (discount_of q (default_price row)); cbn; auto.
Qed.

(** The adapters read nothing of the book but its identifier. *)
Lemma get_price_isbn (store store_url : string) (r1 r2 : Row) :
  isbn r1 = isbn r2 -> price store store_url r1 = price store store_url r2.
Proof.
  intro E. unfold get_price, price_functions. cbn.
  destruct (String.eqb store "Almedina");
    [ unfold get_price_almedina; rewrite E; reflexivity | ].
  destruct (String.eqb store "Leya");
    [ unfold get_price_leya; rewrite E; reflexivity | ].
  destruct (String.eqb store "Presenca");
    [ unfold get_price_presenca; rewrite E; reflexivity | reflexivity ].
Qed.


(** C3. On a qualifying update that runs to its end, the best store is the
    current store, unless a best store was already recorded and the scraped
    price equals the best price the row now holds (the one just written): then
    the current store is appended to the recorded value after a comma. *)
Theorem best_store_set_or_appended
    (store store_url : string) (row row' : Row) (Q : float) :
  price store store_url row = Ok (Some Q) ->
  within_margin Q (best_price row) = true ->
  scrape store store_url row = (row', Ok tt) ->
  best_price row' = Some Q /\
  (best_store row = None -> best_store row' = Some store) /\
  (forall recorded, best_store row = Some recorded ->
     (equals_best_price Q row' = true ->
        best_store row' = Some (recorded ++ "," ++ store)) /\
     (equals_best_price Q row' = false ->
        best_store row' = Some store)).
Proof.
  intros Hq Hm. rewrite scrape_price_from_store_unfold, Hq, Hm.
  destruct (discount_of Q (default_price row)) as [d|e]; [|discriminate].
  intro E. injection E as <-. unfold equals_best_price. cbn.
  split; [reflexivity|]. split.
  - intros ->. reflexivity.
  - intros recorded ->. cbn. split; intros ->; reflexivity.
Qed.

(** C9. When a quote [Q] is accepted for a book of default price [D], the
    discount written is [round((1 - Q / D) * 100)]. *)
Theorem discount_recomputed_on_accept
    (store store_url : string) (row : Row) (Q : float) (d : Z) :
  price store store_url row = Ok (Some Q) ->
  within_margin Q (best_price row) = true ->
  PrimFloat.eqb (default_price row) 0 = false ->
  py_round ((1 - Q / default_price row) * 100)%float = Ok d ->
  snd (scrape store store_url row) = Ok tt /\
  discount (fst (scrape store store_url row)) = Some d.
Proof.
  intros Hq Hm Hz Hr. rewrite scrape_price_from_store_unfold, Hq, Hm.
  unfold discount_of, py_truediv. rewrite Hz. cbn. rewrite Hr. cbn. auto.
Qed.

(** *** Order of the stores *)

Lemma scrape_step (row r : Row) (m : float) (su : string * string) :
  same_book row r ->
  best_yields_to m r ->
  answers_below price row m su ->
  let r' := fst (scrape (fst su) (snd su) r) in
  snd (scrape (fst su) (snd su) r) = Ok tt /\
  same_book row r' /\
  best_yields_to m r' /\
  (best_price r = Some m -> best_price r' = Some m) /\
  (price (fst su) (snd su) row = Ok (Some m) -> best_price r' = Some m).
Proof.
  intros [Hi Hd] Hinv Hans. cbn zeta.
  assert (Hp : price (fst su) (snd su) r = price (fst su) (snd su) row)
    by (apply get_price_isbn; exact Hi).
  rewrite scrape_price_from_store_unfold, Hp, Hd.
  destruct Hans as [Habs | (q & Hq & (d & Hdisc) & Hy)].
  - rewrite Habs. cbn. repeat split; auto. discriminate.
  - rewrite Hq, Hdisc.
    destruct Hinv as [Hn | (p & Hp' & Hyp)].
    + rewrite Hn. cbn. repeat split; auto.
      * right. exists q. auto.
      * discriminate.
      * intro E. injection E as ->. reflexivity.
    + rewrite Hp'. cbn.
      destruct (PrimFloat.leb q (p + round_margin)) eqn:Hle; cbn.
      * repeat split; auto.
        -- right. exists q. auto.
        -- intro E. injection E as ->.
           destruct Hy as [-> | [_ Hy]]; [reflexivity | congruence].
        -- intro E. injection E as ->. reflexivity.
      * repeat split; auto.
        -- right. exists p. auto.
        -- intro E. rewrite Hp'. exact E.
        -- intro E. injection E as ->. rewrite Hp'.
           destruct Hyp as [-> | [Hyp _]]; [reflexivity | congruence].
Qed.

End ScraperFacts.

(** *** The adapters and the response status *)

Section AdapterFacts.

Variable requests_get : string -> result Response.
Variable requests_post : string -> list (string * string) -> result Response.
Variable html_find : string -> string -> string * string -> option string.
Variable float_of_string : string -> option float.

Lemma raise_for_status_error (r : Response) :
  error_status r -> raise_for_status r = Raise HTTPError.
Proof.
  unfold error_status, raise_for_status. intros [H1 H2].
  apply Z.leb_le in H1. apply Z.ltb_lt in H2. rewrite H1, H2. reflexivity.
Qed.

(** The two adapters that go through [get_html_from_url] stop on an error
    status. *)
Lemma get_price_almedina_error_status (store_url : string) (book : Row)
    (r : Response) :
  requests_get (store_url ++ isbn book) = Ok r ->
  error_status r ->
  get_price_almedina requests_get html_find float_of_string store_url book
  = Raise HTTPError.
Proof.
  intros Hr He. unfold get_price_almedina, get_html_from_url.
  rewrite Hr. cbn. rewrite (raise_for_status_error r He). reflexivity.
Qed.

Lemma get_price_presenca_error_status (store_url : string) (book : Row)
    (r : Response) :
  requests_get (store_url ++ isbn book) = Ok r ->
  error_status r ->
  get_price_presenca requests_get html_find float_of_string store_url book
  = Raise HTTPError.
Proof.
  intros Hr He. unfold get_price_presenca, get_html_from_url.
  rewrite Hr. cbn. rewrite (raise_for_status_error r He). reflexivity.
Qed.

(** The Leya adapter never looks at the status: two responses with the same
    text give the same result. *)
Lemma get_price_leya_status_blind (store_url : string) (book : Row)
    (code : Z) (body : string) :
  (forall form, requests_post store_url form = Ok (mkResponse code body)) ->
  get_price_leya requests_post html_find float_of_string store_url book =
  match html_find body "div" ("class", "right") with
  | Some t =>
      x <~ py_float float_of_string
             (replace " " ""
                (replace "€" "" (replace "," "." (replace "&#8364;" "" t)))) ;;
      Ok (Some x)
  | None => Ok None
  end.
Proof.
  intro Hr. unfold get_price_leya. rewrite Hr. reflexivity.
Qed.

End AdapterFacts.

(** *** Runs on the finite web *)


(** C2, on the code. Almedina sets the best price 9.99 and Presenca then
    quotes 9.99: the best store is "Almedina,Presenca". When Presenca quotes
    9.97 instead, the best price becomes 9.97 and the best store is again
    "Almedina,Presenca": the comparison of line 209 reads the best price that
    line 205 has just overwritten. *)
Theorem tie_and_improvement_both_append :
  web_scrape_stores web_9_99_twice [Almedina; Presenca] fresh_book =
    (mkRow "9789720000000" "Os Maias" 20 (Some 9.99%float)
           (Some "Almedina,Presenca") (Some 50), Ok tt) /\
  web_scrape_stores web_9_99_then_9_97 [Almedina; Presenca] fresh_book =
    (mkRow "9789720000000" "Os Maias" 20 (Some 9.97%float)
           (Some "Almedina,Presenca") (Some 50), Ok tt).
Proof.
  split; vm_compute; reflexivity.
Qed.

(** The best store after Presenca quotes the price Almedina set. *)
Lemma best_store_set_or_appended_witness :
  best_store (fst (web_scrape web_9_99_twice "Presenca" presenca_url
                     (fst (web_scrape web_9_99_twice "Almedina" almedina_url
                             fresh_book))))
  = Some "Almedina,Presenca".
Proof.
  pose (r1 := fst (web_scrape web_9_99_twice "Almedina" almedina_url fresh_book)).
  pose (r2 := fst (web_scrape web_9_99_twice "Presenca" presenca_url r1)).
  change (best_store r2 = Some "Almedina,Presenca").
  refine (proj1 (proj2 (proj2
    (best_store_set_or_appended
       (web_get web_9_99_twice) (web_post web_9_99_twice)
       (web_find web_9_99_twice) decimal_float
       "Presenca" presenca_url r1 r2 9.99%float _ _ _)) "Almedina" _) _);
    vm_compute; reflexivity.
Defined.

(** Default price 20.00 and accepted quote 15.00: the discount is 25. *)
Lemma discount_recomputed_on_accept_witness :
  snd (web_scrape web_15_00 "Almedina" almedina_url fresh_book) = Ok tt /\
  discount (fst (web_scrape web_15_00 "Almedina" almedina_url fresh_book))
  = Some 25.
Proof.
  apply (discount_recomputed_on_accept
           (web_get web_15_00) (web_post web_15_00) (web_find web_15_00)
           decimal_float "Almedina" almedina_url fresh_book 15%float 25);
    vm_compute; reflexivity.
Defined.

(** C8, on the code. Leya's adapter turns a 500 response into a price and a
    503 response into an absence, where the adapters of Almedina and Presenca
    raise on the same status. *)
Theorem leya_accepts_error_responses :
  web_get_price web_errors "Leya" leya_url fresh_book = Ok (Some 12.5%float) /\
  web_get_price web_errors "Leya" leya_url other_book = Ok None /\
  web_get_price web_errors "Almedina" almedina_url fresh_book = Raise HTTPError /\
  web_get_price web_errors "Presenca" presenca_url fresh_book = Raise HTTPError.
Proof.
  repeat split; vm_compute; reflexivity.
Qed.

(** ** The historical merger *)

Lemma mem_In (c : string) (l : list string) : mem c l = true <-> In c l.
Proof.
  unfold mem. rewrite existsb_exists. split.
  - intros (x & Hin & Heq). apply String.eqb_eq in Heq. subst. exact Hin.
  - intro Hin. exists c. split; [exact Hin | apply String.eqb_refl].
Qed.

Lemma list_eqb_eq (l1 l2 : list string) : list_eqb l1 l2 = true -> l1 = l2.
Proof.
  revert l2. induction l1 as [|x l1 IH]; intros [|y l2] H; cbn in H;
    try discriminate; [reflexivity|].
  apply andb_prop in H. destruct H as [Hx Hl].
  apply String.eqb_eq in Hx. f_equal; auto.
Qed.

Lemma assoc_None {A} (k : string) (l : list (string * A)) :
  mem k (map fst l) = false -> assoc k l = None.
Proof.
  induction l as [|[k' v] l IH]; cbn; [reflexivity|].
  destruct (String.eqb k k'); cbn; [discriminate | exact IH].
Qed.

Lemma nth_error_add_column (c : string) (rs : list (string * cells))
    (vs : list cell) (i : nat) (k : string) (r : cells) :
  nth_error rs i = Some (k, r) ->
  nth_error (add_column c rs vs) i = Some (k, (c, nth i vs NaN) :: r).
Proof.
  revert vs i. induction rs as [|r0 rs IH]; intros vs i H.
  - destruct i; discriminate.
  - destruct i as [|i]; cbn in *.
    + injection H as ->. cbn. destruct vs; reflexivity.
    + rewrite (IH (tl vs) i H). destruct vs as [|v vs]; cbn; [|reflexivity].
      destruct i; reflexivity.
Qed.

Lemma matching_single (k c : string) (df : DataFrame) (x : cell) (r : cells) :
  In (k, r) (rows df) -> matching k c df = [x] -> x = lookup c r.
Proof.
  intros Hin Hm.
  assert (H : In (lookup c r) (matching k c df)).
  { unfold matching. apply in_map_iff. exists (k, r). split; [reflexivity|].
    apply filter_In. split; [exact Hin | apply String.eqb_refl]. }
  rewrite Hm in H. destruct H as [H | []]. exact H.
Qed.

(** A test on anything but a single cell raises. *)
Lemma qualifies_single (b : cell) (found : list cell) (better : bool) :
  qualifies b found = Ok better -> exists c, found = [c].
Proof.
  destruct found as [|c [|c' found]]; cbn.
  - destruct (is_number b); discriminate.
  - intros _. exists c. reflexivity.
  - destruct (_ && _); discriminate.
Qed.

Section MergeFacts.

Variable today_date : string.

Lemma ledger_schema_fields (df : DataFrame) :
  ledger_schema df = true ->
  mem "best_price" (columns df) = true /\
  mem "best_store" (columns df) = true /\
  mem "discount" (columns df) = true /\
  mem "best_date" (columns df) = true.
Proof.
  unfold ledger_schema. cbn. intro H.
  repeat (apply andb_prop in H; destruct H as [? H]). auto.
Qed.

Lemma merge_book_step (cols : list string) (book : string * cells)
    (df df' : DataFrame) :
  ledger_schema df = true ->
  merge_book today_date cols book df = (df', Ok tt) ->
  columns df' = columns df /\
  forall i k r,
    nth_error (rows df) i = Some (k, r) ->
    nth_error (rows df') i =
    Some (k, if String.eqb (fst book) k then merge_row today_date (snd book) r else r).
Proof.
  intros Hs H.
  destruct (ledger_schema_fields df Hs) as (Hbp & Hbs & Hdi & Hbd).
  unfold merge_book, bind, get, lift, ret, modify in H.
  (* lines 158-159: the ledger after the seeding *)
  match type of H with
  | (let (_, _) := ?seeding in _) = _ =>
      destruct seeding as [df1 [[]|e]] eqn:E; [|discriminate]
  end.
  assert (Hseed : columns df1 = columns df /\
    forall i k r, nth_error (rows df) i = Some (k, r) ->
                  nth_error (rows df1) i = Some (k, r)).
  { destruct (mem (fst book) (labels df)).
    - injection E as <-. auto.
    - unfold loc_setitem_row in E.
      destruct (Nat.eqb _ _); [|discriminate].
      injection E as <-. split; [reflexivity|].
      intros i k r Hi. cbn. rewrite nth_error_app1; [exact Hi|].
      apply nth_error_Some. rewrite Hi. discriminate. }
  destruct Hseed as (Hcols & Hrows). clear E.
  assert (Hbp1 : mem "best_price" (columns df1) = true) by (rewrite Hcols; exact Hbp).
  unfold getattr in H.
  destruct (mem "best_price" cols); [|discriminate].
  unfold merge_row.
  destruct (is_None (lookup "best_price" (snd book))).
  { injection H as <-. split; [exact Hcols|].
    intros i k r Hi. rewrite (Hrows i k r Hi).
    destruct (String.eqb (fst book) k); reflexivity. }
  destruct (loc_getitem (fst book) "best_price" df1) as [found|e] eqn:Hfound;
    [|discriminate].
  destruct (qualifies (lookup "best_price" (snd book)) found)
    as [better|e] eqn:Hq; [|discriminate].
  assert (Hone : forall k r, In (k, r) (rows df1) -> String.eqb (fst book) k = true ->
                 found = [lookup "best_price" r]).
  { intros k r Hin Hk. apply String.eqb_eq in Hk. subst k.
    destruct (qualifies_single _ _ _ Hq) as (c & ->).
    unfold loc_getitem in Hfound. rewrite Hbp1 in Hfound.
    destruct (matching (fst book) "best_price" df1) eqn:Hm; [discriminate|].
    injection Hfound as ? ?. subst.
    rewrite (matching_single _ _ _ _ _ Hin Hm). reflexivity. }
  destruct better.
  - destruct (mem "title" cols); [|discriminate].
    destruct (mem "best_store" cols); [|discriminate].
    destruct (mem "discount" cols); [|discriminate].
    injection H as <-.
    unfold loc_setitem. cbn [columns rows]. rewrite Hcols, Hbp.
    cbn [columns rows]. rewrite Hbs. cbn [columns rows]. rewrite Hdi.
    cbn [columns rows]. rewrite Hbd. cbn [columns rows].
    split; [reflexivity|].
    intros i k r Hi. pose proof (Hrows i k r Hi) as Hi1.
    repeat rewrite map_map.
    rewrite (map_nth_error _ _ _ Hi1). cbn [fst snd].
    destruct (String.eqb (fst book) k) eqn:Hk; cbn [fst snd]; try rewrite Hk;
      cbn [fst snd]; try rewrite Hk; cbn [fst snd]; try rewrite Hk;
      cbn [fst snd]; [|reflexivity].
    rewrite (Hone k r (nth_error_In _ _ Hi1) Hk) in Hq. rewrite Hq.
    reflexivity.
  - injection H as <-. split; [exact Hcols|].
    intros i k r Hi. pose proof (Hrows i k r Hi) as Hi1. rewrite Hi1.
    destruct (String.eqb (fst book) k) eqn:Hk; [|reflexivity].
    rewrite (Hone k r (nth_error_In _ _ Hi1) Hk) in Hq. rewrite Hq.
    reflexivity.
Qed.

Lemma ledger_schema_columns (df df' : DataFrame) :
  columns df' = columns df -> ledger_schema df' = ledger_schema df.
Proof.
  intro H. unfold ledger_schema. rewrite H. reflexivity.
Qed.

Lemma merge_books_cons (cols : list string) (book : string * cells)
    (rest : list (string * cells)) (df df' : DataFrame) :
  merge_books today_date cols (book :: rest) df = (df', Ok tt) ->
  exists df1,
    merge_book today_date cols book df = (df1, Ok tt) /\
    merge_books today_date cols rest df1 = (df', Ok tt).
Proof.
  intro H.
  change (bind (merge_book today_date cols book)
               (fun _ => merge_books today_date cols rest) df = (df', Ok tt)) in H.
  unfold bind in H.
  destruct (merge_book today_date cols book df) as [df1 [[]|e]];
    [|discriminate].
  exists df1. auto.
Qed.

(** The loop, row by row: it adds no column to a ledger that has the
    running-best columns, and leaves on each ledger row what the books of
    that label make of it, in order. *)
Lemma merge_books_rows (cols : list string) (books : list (string * cells)) :
  forall df df',
  ledger_schema df = true ->
  merge_books today_date cols books df = (df', Ok tt) ->
  columns df' = columns df /\
  forall i k r,
    nth_error (rows df) i = Some (k, r) ->
    nth_error (rows df') i = Some (k, merged_row today_date k books r).
Proof.
  induction books as [|book rest IH]; intros df df' Hs H.
  - injection H as <-. auto.
  - destruct (merge_books_cons _ _ _ _ _ H) as (df1 & H1 & H2).
    destruct (merge_book_step _ _ _ _ Hs H1) as (Hc1 & Hr1).
    assert (Hs1 : ledger_schema df1 = true)
      by (rewrite (ledger_schema_columns _ _ Hc1); exact Hs).
    destruct (IH df1 df' Hs1 H2) as (Hc2 & Hr2).
    split; [congruence|].
    intros i k r Hi. apply Hr2. apply Hr1. exact Hi.
Qed.

Lemma merged_row_absent (k : string) (books : list (string * cells)) (r : cells) :
  mem k (map fst books) = false -> merged_row today_date k books r = r.
Proof.
  unfold merged_row. revert r.
  induction books as [|book rest IH]; intros r H; [reflexivity|].
  cbn in H. apply orb_false_elim in H. destruct H as [Hk Hrest].
  cbn. rewrite String.eqb_sym, Hk. apply IH. exact Hrest.
Qed.


Lemma lookup_cons_other (c c' : string) (v : cell) (r : cells) :
  c <> c' -> lookup c ((c', v) :: r) = lookup c r.
Proof.
  intro H. unfold lookup. cbn.
  destruct (String.eqb c c') eqn:E; [|reflexivity].
  apply String.eqb_eq in E. contradiction.
Qed.

Lemma merge_row_other (c : string) (b r : cells) :
  ~ In c running_best_fields -> lookup c (merge_row today_date b r) = lookup c r.
Proof.
  intro H. unfold merge_row.
  destruct (is_None _); [reflexivity|].
  destruct (qualifies _ _) as [[|]|]; try reflexivity.
  unfold overwrite_row.
  repeat rewrite lookup_cons_other;
    [reflexivity | | | |]; intro E; apply H; subst c; cbn; auto.
Qed.

Lemma merged_row_other (c k : string) (books : list (string * cells)) (r : cells) :
  ~ In c running_best_fields -> lookup c (merged_row today_date k books r) = lookup c r.
Proof.
  intro H. unfold merged_row. revert r.
  induction books as [|book rest IH]; intro r; [reflexivity|].
  cbn. rewrite IH. destruct (String.eqb (fst book) k); [|reflexivity].
  apply merge_row_other. exact H.
Qed.

Lemma align_absent (value : list (string * cell)) (index : list string)
    (vs : list cell) (i : nat) (k : string) :
  align value index = Ok vs ->
  nth_error index i = Some k ->
  mem k (map fst value) = false ->
  nth i vs NaN = NaN.
Proof.
  unfold align. intros H Hi Hk.
  destruct (list_eqb (map fst value) index) eqn:E.
  - apply list_eqb_eq in E. exfalso.
    assert (Hin : mem k (map fst value) = true)
      by (apply mem_In; rewrite E; eapply nth_error_In; exact Hi).
    congruence.
  - destruct (has_duplicates _); [discriminate|]. injection H as <-.
    apply nth_error_nth.
    rewrite (map_nth_error _ _ _ Hi). unfold lookup.
    rewrite (assoc_None _ _ Hk). reflexivity.
Qed.

(** The whole merge on a ledger with the running-best columns: when the date
    column is there nothing is inserted; otherwise it is inserted at position
    9 and every row gets a cell for it. *)
Lemma update_historical_data_rows (df_books df df' : DataFrame) :
  ledger_schema df = true ->
  update_historical_data today_date df_books df = (df', Ok tt) ->
  (mem today_date (columns df) = true /\
   columns df' = columns df /\
   forall i k r,
     nth_error (rows df) i = Some (k, r) ->
     nth_error (rows df') i = Some (k, merged_row today_date k (rows df_books) r))
  \/
  (mem today_date (columns df) = false /\
   columns df' = with_date_column today_date (columns df) /\
   forall i k r,
     nth_error (rows df) i = Some (k, r) ->
     exists v,
       nth_error (rows df') i
       = Some (k, (today_date, v) :: merged_row today_date k (rows df_books) r) /\
       (mem k (labels df_books) = false -> v = NaN)).
Proof.
  intros Hs H. unfold update_historical_data, bind, get, lift, ret, modify in H.
  destruct (merge_books today_date (columns df_books) (rows df_books) df)
    as [dfl [[]|e]] eqn:Hloop; [|discriminate].
  destruct (merge_books_rows _ _ _ _ Hs Hloop) as (Hc & Hr).
  rewrite Hc in H.
  destruct (mem today_date (columns df)) eqn:Htoday.
  - injection H as <-. left. auto.
  - right. split; [reflexivity|].
    destruct (getitem "best_price" df_books) as [value|e] eqn:Hv; [|discriminate].
    unfold insert in H. rewrite Hc, Htoday in H.
    destruct (align value (labels dfl)) as [vs|e] eqn:Hal; [|discriminate].
    cbn [rbind] in H.
    destruct (Nat.ltb _ _); [discriminate|].
    injection H as <-. cbn [columns rows].
    split; [reflexivity|].
    intros i k r Hi. exists (nth i vs NaN). split.
    + apply nth_error_add_column. apply Hr. exact Hi.
    + intro Hk. apply (align_absent value (labels dfl) vs i k Hal).
      * unfold labels. rewrite (map_nth_error fst _ _ (Hr i k r Hi)). reflexivity.
      * unfold getitem in Hv. destruct (mem "best_price" (columns df_books));
          [|discriminate].
        injection Hv as <-. rewrite map_map. exact Hk.
Qed.

Lemma In_with_date_column (c : string) (cols : list string) :
  In c (with_date_column today_date cols) <-> c = today_date \/ In c cols.
Proof.
  unfold with_date_column. rewrite in_app_iff. cbn [In].
  assert (H : In c cols <-> In c (firstn 9 cols) \/ In c (skipn 9 cols))
    by (rewrite <- in_app_iff, firstn_skipn; reflexivity).
  rewrite H. intuition auto.
Qed.

Lemma today_not_running_best (df : DataFrame) :
  ledger_schema df = true ->
  mem today_date (columns df) = false ->
  ~ In today_date running_best_fields.
Proof.
  intros Hs Ht Hin. unfold ledger_schema in Hs.
  rewrite forallb_forall in Hs. specialize (Hs _ Hin). congruence.
Qed.

Lemma lookup_date_cell (c : string) (v : cell) (r : cells) (df : DataFrame) :
  mem today_date (columns df) = false ->
  In c (columns df) ->
  lookup c ((today_date, v) :: r) = lookup c r.
Proof.
  intros Ht Hc. apply lookup_cons_other. intros ->.
  apply mem_In in Hc. congruence.
Qed.


(** C10. A ledger row whose book is not in today's table keeps every cell it
    had; a column the returned ledger has and the given ledger had not is
    the date column, and the row holds NaN there. *)
Theorem absent_book_row_kept
    (df_books df df' : DataFrame) (i : nat) (k : string) (r : cells) :
  ledger_schema df = true ->
  update_historical_data today_date df_books df = (df', Ok tt) ->
  nth_error (rows df) i = Some (k, r) ->
  mem k (labels df_books) = false ->
  exists r',
    nth_error (rows df') i = Some (k, r') /\
    (forall c, In c (columns df) -> lookup c r' = lookup c r) /\
    (forall c, In c (columns df') -> ~ In c (columns df) ->
       c = today_date /\ lookup c r' = NaN).
Proof.
  intros Hs H Hi Hk.
  assert (Hmerged : merged_row today_date k (rows df_books) r = r)
    by (apply merged_row_absent; exact Hk).
  destruct (update_historical_data_rows _ _ _ Hs H)
    as [(_ & Hc & Hr) | (Ht & Hc & Hr)].
  - exists r. rewrite <- Hmerged at 1. split; [auto|]. split; [auto|].
    intros c Hin Hout. rewrite Hc in Hin. contradiction.
  - destruct (Hr i k r Hi) as (v & Hv & Habs). rewrite Hmerged in Hv.
    rewrite (Habs Hk) in Hv.
    exists ((today_date, NaN) :: r). split; [exact Hv|]. split.
    + intros c Hin. apply (lookup_date_cell c NaN r df Ht Hin).
    + intros c Hin Hout. rewrite Hc in Hin.
      apply In_with_date_column in Hin. destruct Hin as [-> | Hin];
        [|contradiction].
      split; [reflexivity|]. unfold lookup. cbn.
      rewrite String.eqb_refl. reflexivity.
Qed.

(** C5, amended. Two merges on the same date, the first on a ledger without
    a column for that date: the ledger returned by the second has exactly one
    column for the date, and every row the first merge returned has in it the
    cell the first merge wrote. *)
Theorem same_date_column_written_once
    (books1 books2 df0 df1 df2 : DataFrame) :
  ledger_schema df0 = true ->
  mem today_date (columns df0) = false ->
  update_historical_data today_date books1 df0 = (df1, Ok tt) ->
  update_historical_data today_date books2 df1 = (df2, Ok tt) ->
  count_occ string_dec (columns df2) today_date = 1%nat /\
  forall i k r,
    nth_error (rows df1) i = Some (k, r) ->
    exists r2,
      nth_error (rows df2) i = Some (k, r2) /\
      lookup today_date r2 = lookup today_date r.
Proof.
  intros Hs Ht H1 H2.
  pose proof (today_not_running_best df0 Hs Ht) as Hnot.
  destruct (update_historical_data_rows _ _ _ Hs H1)
    as [(Ht' & _) | (_ & Hc1 & _)]; [congruence|].
  assert (Ht1 : mem today_date (columns df1) = true).
  { apply mem_In. rewrite Hc1. apply In_with_date_column. auto. }
  assert (Hs1 : ledger_schema df1 = true).
  { unfold ledger_schema in *. rewrite forallb_forall in *.
    intros c Hc. apply mem_In. rewrite Hc1. apply In_with_date_column.
    right. apply mem_In. exact (Hs c Hc). }
  destruct (update_historical_data_rows _ _ _ Hs1 H2)
    as [(_ & Hc2 & Hr2) | (Ht2 & _)]; [|congruence].
  split.
  - rewrite Hc2, Hc1. unfold with_date_column.
    rewrite count_occ_app, count_occ_cons_eq by reflexivity.
    rewrite Nat.add_succ_r, <- count_occ_app, firstn_skipn.
    f_equal. apply count_occ_not_In. intro Hin. apply mem_In in Hin. congruence.
  - intros i k r Hi. exists (merged_row today_date k (rows books2) r).
    split; [apply Hr2; exact Hi|]. apply merged_row_other. exact Hnot.
Qed.

End MergeFacts.

(** *** Runs of the merge *)

(** C5, as stated, fails: after a first merge at 9.00 and a second merge at
    8.00 on the same date, the date column still holds 9.00, the first run's
    price, while the running best price is 8.00. *)
Lemma second_run_keeps_first_date_cell :
  update_historical_data march_2 books_at_9 ledger_two_books
  = (ledger_after_first_run, Ok tt) /\
  update_historical_data march_2 books_at_8 ledger_after_first_run
  = (ledger_after_second_run, Ok tt) /\
  columns ledger_after_second_run = (ledger_columns ++ [march_2])%list /\
  to_table ledger_after_second_run =
  [ ("9789720000000",
     [VStr "9789720000000"; VStr "Os Maias"; VStr "Eca de Queiros";
      VStr "Livros do Brasil"; VFloat 20; VFloat 8; VStr "Presenca"; VInt 60;
      VStr "2024-03-02"; VFloat 9]);
    ("9789720000002",
     [VStr "9789720000002"; VStr "Mensagem"; VStr "Fernando Pessoa";
      VStr "Assirio e Alvim"; VFloat 12; VFloat 11; VStr "Almedina"; VInt 8;
      VStr "2024-02-27"; NaN]) ].
Proof.
  repeat split; vm_compute; reflexivity.
Qed.

(** The date column after the second run of the same day. *)
Lemma same_date_column_written_once_witness :
  count_occ string_dec (columns ledger_after_second_run) march_2 = 1%nat /\
  exists r2,
    nth_error (rows ledger_after_second_run) 0 = Some ("9789720000000", r2) /\
    lookup march_2 r2 = VFloat 9.
Proof.
  pose (r := match nth_error (rows ledger_after_first_run) 0 with
             | Some row => snd row
             | None => []
             end).
  destruct (same_date_column_written_once march_2 books_at_9 books_at_8
              ledger_two_books ledger_after_first_run ledger_after_second_run)
    as (Hcount & Hrows); try (vm_compute; reflexivity).
  split; [exact Hcount|].
  destruct (Hrows 0%nat "9789720000000" r) as (r2 & Hr2 & Hcell);
    [vm_compute; reflexivity|].
  exists r2. split; [exact Hr2|]. rewrite Hcell. vm_compute. reflexivity.
Defined.


(** The second book of the ledger, which today's table does not have. *)
Lemma absent_book_row_kept_witness :
  exists r',
    nth_error (rows ledger_after_first_run) 1 = Some ("9789720000002", r') /\
    lookup "best_price" r' = VFloat 11 /\
    lookup "best_date" r' = VStr "2024-02-27" /\
    lookup march_2 r' = NaN.
Proof.
  pose (r := match nth_error (rows ledger_two_books) 1 with
             | Some row => snd row
             | None => []
             end).
  destruct (absent_book_row_kept march_2 books_at_9 ledger_two_books
              ledger_after_first_run 1 "9789720000002" r)
    as (r' & Hr' & Hold & Hnew); try (vm_compute; reflexivity).
  exists r'. split; [exact Hr'|].
  split; [rewrite Hold; [vm_compute; reflexivity | cbn; auto 10]|].
  split; [rewrite Hold; [vm_compute; reflexivity | cbn; auto 10]|].
  apply Hnew.
  - vm_compute. auto 12.
  - intro Hin. apply mem_In in Hin. vm_compute in Hin. discriminate.
Defined.

(** C7, on the code. A book the ledger does not have is seeded by laying
    the row tuple, which starts with the index label, on the ledger's columns
    by position. On a ledger that already has a date column the tuple is one
    element short and the merge raises; on a ledger without one the merge
    returns, and the new row has the identifier under "title" and, for a
    book without a quote, the default price under "best_price". *)
Theorem new_book_seeded_by_position :
  update_historical_data march_2 books_with_new_book ledger_with_date
  = (ledger_with_date, Raise ValueError) /\
  snd (update_historical_data march_2 books_with_unquoted_new_book
         ledger_two_books) = Ok tt /\
  nth_error
    (to_table (fst (update_historical_data march_2 books_with_unquoted_new_book
                      ledger_two_books))) 2
  = Some ("9789720000001",
          [VStr "9789720000001"; VStr "9789720000001";
           VStr "A Cidade e as Serras"; VStr "Eca de Queiros";
           VStr "Livros do Brasil"; VFloat 12; VNone; VNone; VNone; VNone]).
Proof.
  repeat split; vm_compute; reflexivity.
Qed.

(** * Further properties *)

(** ** The adapters *)

Section AdapterErrors.

Variable requests_get : string -> result Response.
Variable requests_post : string -> list (string * string) -> result Response.
Variable html_find : string -> string -> string * string -> option string.
Variable float_of_string : string -> option float.

Local Abbreviation price :=
  (get_price requests_get requests_post html_find float_of_string).

(** X1. A store name that is none of the three adapters' raises
    [ValueError], whatever the network would answer. *)
Theorem get_price_unknown_store (store store_url : string) (book : Row) :
  store <> "Almedina" -> store <> "Leya" -> store <> "Presenca" ->
  price store store_url book = Raise ValueError.
Proof.
  intros Ha Hl Hp. unfold get_price, price_functions. cbn.
  destruct (String.eqb store "Almedina") eqn:Ea;
    [apply String.eqb_eq in Ea; contradiction|].
  destruct (String.eqb store "Leya") eqn:El;
    [apply String.eqb_eq in El; contradiction|].
  destruct (String.eqb store "Presenca") eqn:Ep;
    [apply String.eqb_eq in Ep; contradiction|].
  reflexivity.
Qed.

(** X2. Through [get_price], the Almedina and Presenca adapters raise
    [HTTPError] on a response with a 4xx or 5xx status, whatever its body. *)
Theorem get_price_raises_on_error_status
    (store store_url : string) (book : Row) (r : Response) :
  store = "Almedina" \/ store = "Presenca" ->
  requests_get (store_url ++ isbn book) = Ok r ->
  error_status r ->
  price store store_url book = Raise HTTPError.
Proof.
  intros [-> | ->] Hr He.
  - exact (get_price_almedina_error_status requests_get html_find
             float_of_string store_url book r Hr He).
  - exact (get_price_presenca_error_status requests_get html_find
             float_of_string store_url book r Hr He).
Qed.

(** X3. When the request an adapter makes raises, [get_price] raises the
    same exception: the GET for Almedina and Presenca, the POST for Leya. *)
Theorem get_price_propagates_transport_exception
    (store store_url : string) (book : Row) (e : exn) :
  In store ["Almedina"; "Leya"; "Presenca"] ->
  (store <> "Leya" -> requests_get (store_url ++ isbn book) = Raise e) ->
  (store = "Leya" ->
   requests_post store_url (leya_form (isbn book)) = Raise e) ->
  price store store_url book = Raise e.
Proof.
  intros [<- | [<- | [<- | []]]] Hget Hpost.
  - change (get_price_almedina requests_get html_find float_of_string
              store_url book = Raise e).
    unfold get_price_almedina, get_html_from_url.
    rewrite Hget by discriminate. reflexivity.
  - change (get_price_leya requests_post html_find float_of_string
              store_url book = Raise e).
    unfold get_price_leya. specialize (Hpost eq_refl).
    unfold leya_form in Hpost. rewrite Hpost. reflexivity.
  - change (get_price_presenca requests_get html_find float_of_string
              store_url book = Raise e).
    unfold get_price_presenca, get_html_from_url.
    rewrite Hget by discriminate. reflexivity.
Qed.

End AdapterErrors.

(** X4. The Leya adapter gives the same result for two responses with the
    same body, whatever their status codes. *)
Theorem get_price_leya_ignores_status
    (post1 post2 : string -> list (string * string) -> result Response)
    (html_find : string -> string -> string * string -> option string)
    (float_of_string : string -> option float)
    (store_url : string) (book : Row) (code1 code2 : Z) (body : string) :
  post1 store_url (leya_form (isbn book)) = Ok (mkResponse code1 body) ->
  post2 store_url (leya_form (isbn book)) = Ok (mkResponse code2 body) ->
  get_price_leya post1 html_find float_of_string store_url book =
  get_price_leya post2 html_find float_of_string store_url book.
Proof.
  intros H1 H2. unfold get_price_leya. unfold leya_form in H1, H2.
  rewrite H1, H2. reflexivity.
Qed.

(** *** The text handed to [float()] *)

Lemma contains_char_append (c : ascii) (a b : string) :
  contains_char c (a ++ b) = contains_char c a || contains_char c b.
Proof.
  induction a as [|x a IH]; cbn; [reflexivity|].
  rewrite IH. apply orb_assoc.
Qed.

(** A replacement whose new text lacks [c] brings no [c] in. *)
Lemma replace_from_keeps_out (c : ascii) (old new : string) (s : string) :
  contains_char c new = false ->
  contains_char c s = false ->
  forall skip, contains_char c (replace_from skip old new s) = false.
Proof.
  intros Hnew. induction s as [|a s IH]; intros Hs skip; [reflexivity|].
  cbn in Hs. apply orb_false_elim in Hs. destruct Hs as [Ha Hs].
  cbn [replace_from]. destruct skip as [|k]; [|apply IH; exact Hs].
  destruct (starts_with old (String a s)).
  - rewrite contains_char_append, Hnew. apply IH. exact Hs.
  - cbn. rewrite Ha. apply IH. exact Hs.
Qed.

Lemma intersperse_keeps_out (c : ascii) (new s : string) :
  contains_char c new = false ->
  contains_char c s = false ->
  contains_char c (intersperse new s) = false.
Proof.
  intros Hnew. induction s as [|a s IH]; intro Hs; cbn; [exact Hnew|].
  cbn in Hs. apply orb_false_elim in Hs. destruct Hs as [Ha Hs].
  rewrite contains_char_append, Hnew. cbn. rewrite Ha. apply IH. exact Hs.
Qed.

Lemma replace_keeps_out (c : ascii) (old new s : string) :
  contains_char c new = false ->
  contains_char c s = false ->
  contains_char c (replace old new s) = false.
Proof.
  intros Hnew Hs. unfold replace. destruct old.
  - apply intersperse_keeps_out; assumption.
  - apply replace_from_keeps_out; assumption.
Qed.

(** Replacing the one-character text [c] by a text without [c] leaves no
    [c]. *)
Lemma replace_char_removes (c : ascii) (new s : string) :
  contains_char c new = false ->
  contains_char c (replace (String c EmptyString) new s) = false.
Proof.
  intro Hnew. unfold replace.
  induction s as [|a s IH]; [reflexivity|].
  cbn [replace_from starts_with].
  destruct (Ascii.eqb c a) eqn:E.
  - destruct s; cbn [andb String.length Nat.sub];
      rewrite contains_char_append, Hnew; exact IH.
  - cbn [andb]. cbn. rewrite E. exact IH.
Qed.

(** Whatever the text of the price element, the text each adapter hands to
    [float()] holds no space and no comma. *)
Lemma price_text_has_no_space_no_comma (t : string) :
  let almedina := replace " " "" (replace "€" "" (replace "," "." t)) in
  let leya :=
    replace " " ""
      (replace "€" "" (replace "," "." (replace "&#8364;" "" t))) in
  let presenca :=
    replace "&euro;" ""
      (replace " " "" (replace "€" "" (replace "," "." t))) in
  (contains_char " " almedina = false /\ contains_char "," almedina = false) /\
  (contains_char " " leya = false /\ contains_char "," leya = false) /\
  (contains_char " " presenca = false /\ contains_char "," presenca = false).
Proof.
  cbn zeta.
  assert (Hcomma : forall u, contains_char "," (replace "," "." u) = false)
    by (intro u; apply replace_char_removes; reflexivity).
  assert (Hspace : forall u, contains_char " " (replace " " "" u) = false)
    by (intro u; apply replace_char_removes; reflexivity).
  repeat split.
  - apply Hspace.
  - do 2 (apply replace_keeps_out; [reflexivity|]). apply Hcomma.
  - apply Hspace.
  - do 2 (apply replace_keeps_out; [reflexivity|]). apply Hcomma.
  - apply replace_keeps_out; [reflexivity|]. apply Hspace.
  - do 3 (apply replace_keeps_out; [reflexivity|]). apply Hcomma.
Qed.

(** X5. A price that [get_price] returns is what [float()] made of a text
    that holds no space and no comma. *)
Theorem returned_price_parsed_from_clean_text
    (requests_get : string -> result Response)
    (requests_post : string -> list (string * string) -> result Response)
    (html_find : string -> string -> string * string -> option string)
    (float_of_string : string -> option float)
    (store store_url : string) (book : Row) (x : float) :
  get_price requests_get requests_post html_find float_of_string
            store store_url book = Ok (Some x) ->
  exists s,
    float_of_string s = Some x /\
    contains_char " " s = false /\ contains_char "," s = false.
Proof.
  unfold get_price, price_functions. cbn [assoc].
  destruct (String.eqb store "Almedina").
  { unfold get_price_almedina.
    destruct (get_html_from_url requests_get _) as [html|e]; [|discriminate].
    cbn [rbind].
    destruct (html_find html "div" _); [discriminate|].
    destruct (html_find html "span" _) as [t|]; [|discriminate].
    unfold py_float. intro H.
    destruct (float_of_string _) as [y|] eqn:E; [|discriminate].
    injection H as <-. eexists. split; [exact E|].
    exact (proj1 (price_text_has_no_space_no_comma t)). }
  destruct (String.eqb store "Leya").
  { unfold get_price_leya.
    destruct (requests_post _ _) as [r|e]; [|discriminate]. cbn [rbind].
    destruct (html_find (text r) "div" _) as [t|]; [|discriminate].
    unfold py_float. intro H.
    destruct (float_of_string _) as [y|] eqn:E; [|discriminate].
    injection H as <-. eexists. split; [exact E|].
    exact (proj1 (proj2 (price_text_has_no_space_no_comma t))). }
  destruct (String.eqb store "Presenca"); [|discriminate].
  unfold get_price_presenca.
  destruct (get_html_from_url requests_get _) as [html|e]; [|discriminate].
  cbn [rbind].
  destruct (html_find html "span" _) as [t|]; [|discriminate].
  unfold py_float. intro H.
  destruct (float_of_string _) as [y|] eqn:E; [|discriminate].
  injection H as <-. eexists. split; [exact E|].
  exact (proj2 (proj2 (price_text_has_no_space_no_comma t))).
Qed.

(** ** One book through the stores *)

Section StoreLoop.

Variable requests_get : string -> result Response.
Variable requests_post : string -> list (string * string) -> result Response.
Variable html_find : string -> string -> string * string -> option string.
Variable float_of_string : string -> option float.

Local Abbreviation price :=
  (get_price requests_get requests_post html_find float_of_string).
Local Abbreviation scrape :=
  (scrape_price_from_store requests_get requests_post html_find float_of_string).
Local Abbreviation scrape_all :=
  (scrape_stores requests_get requests_post html_find float_of_string).

Lemma scrape_stores_unfold (su : string * string)
    (rest : list (string * string)) (r : Row) :
  scrape_all (su :: rest) r =
  match scrape (fst su) (snd su) r with
  | (r', Ok _) => scrape_all rest r'
  | (r', Raise e) => (r', Raise e)
  end.
Proof.
  destruct su as [s u]. reflexivity.
Qed.

Lemma scrape_keeps_title (store store_url : string) (row : Row) :
  title (fst (scrape store store_url row)) = title row.
Proof.
  rewrite scrape_price_from_store_unfold.
  destruct (price store store_url row) as [[q|]|e]; cbn; auto.
  destruct (within_margin q (best_price row)); cbn; auto.
  destruct (discount_of q (default_price row)); cbn; auto.
Qed.

(** X6. Whatever the stores answer, and also when one of them raises, the
    row keeps its identifier, its title and its default price. *)
Theorem scrape_stores_keeps_catalog_fields
    (stores : list (string * string)) (row : Row) :
  isbn (fst (scrape_all stores row)) = isbn row /\
  title (fst (scrape_all stores row)) = title row /\
  default_price (fst (scrape_all stores row)) = default_price row.
Proof.
  revert row. induction stores as [|su rest IH]; intro row; [cbn; auto|].
  rewrite scrape_stores_unfold.
  pose proof (scrape_keeps_catalog_fields requests_get requests_post html_find
                float_of_string (fst su) (snd su) row) as [Hi Hd].
  pose proof (scrape_keeps_title (fst su) (snd su) row) as Ht.
  destruct (scrape (fst su) (snd su) row) as [r' [[]|e]]; cbn [fst] in *.
  - destruct (IH r') as (Hi' & Ht' & Hd'). repeat split; congruence.
  - auto.
Qed.

Lemma scrape_best_price_choice (store store_url : string) (r : Row) :
  best_price (fst (scrape store store_url r)) = best_price r \/
  exists q, price store store_url r = Ok (Some q) /\
            best_price (fst (scrape store store_url r)) = Some q.
Proof.
  rewrite scrape_price_from_store_unfold.
  destruct (price store store_url r) as [[q|]|e]; cbn; auto.
  destruct (within_margin q (best_price r)); cbn; auto.
  right. exists q. split; [reflexivity|].
  destruct (discount_of q (default_price r)); reflexivity.
Qed.

End StoreLoop.

(** A store that is not configured, on any web. *)
Lemma get_price_unknown_store_witness :
  web_get_price web_15_00 "Bertrand" "https://www.bertrand.pt/pesquisa/"
                fresh_book = Raise ValueError.
Proof.
  apply (get_price_unknown_store
           (web_get web_15_00) (web_post web_15_00) (web_find web_15_00)
           decimal_float); discriminate.
Defined.

(** Almedina answering 500, through [get_price]. *)
Lemma get_price_raises_on_error_status_witness :
  web_get_price web_errors "Almedina" almedina_url fresh_book = Raise HTTPError.
Proof.
  apply (get_price_raises_on_error_status
           (web_get web_errors) (web_post web_errors) (web_find web_errors)
           decimal_float "Almedina" almedina_url fresh_book
           (mkResponse 500 (almedina_url ++ "9789720000000"))).
  - left. reflexivity.
  - vm_compute. reflexivity.
  - unfold error_status. cbn. lia.
Defined.

(** Leya cannot be reached, on a web where Almedina answers. *)
Lemma get_price_propagates_transport_exception_witness :
  web_get_price web_15_00 "Leya" leya_url fresh_book = Raise ConnectionError.
Proof.
  apply (get_price_propagates_transport_exception
           (web_get web_15_00) (web_post web_15_00) (web_find web_15_00)
           decimal_float).
  - cbn. auto.
  - intro H. contradiction.
  - intros _. reflexivity.
Defined.

(** The same Leya body answered with 200 and with 500. *)
Lemma get_price_leya_ignores_status_witness :
  get_price_leya (web_post [leya_page "9789720000000" 200 "12,50 €"])
                 (web_find [leya_page "9789720000000" 200 "12,50 €"])
                 decimal_float leya_url fresh_book =
  get_price_leya (web_post [leya_page "9789720000000" 500 "12,50 €"])
                 (web_find [leya_page "9789720000000" 200 "12,50 €"])
                 decimal_float leya_url fresh_book.
Proof.
  apply (get_price_leya_ignores_status _ _ _ _ leya_url fresh_book 200 500
           (leya_url ++ "?chave=9789720000000")); vm_compute; reflexivity.
Defined.

(** The price Almedina lists as "15,00 €". *)
Lemma returned_price_parsed_from_clean_text_witness :
  exists s,
    decimal_float s = Some 15%float /\
    contains_char " " s = false /\ contains_char "," s = false.
Proof.
  apply (returned_price_parsed_from_clean_text
           (web_get web_15_00) (web_post web_15_00) (web_find web_15_00)
           decimal_float "Almedina" almedina_url fresh_book).
  vm_compute. reflexivity.
Defined.

(** ** The merge, as a whole *)

Section MergeShape.

Variable today_date : string.

(** The paths of the loop body that return. *)
Lemma merge_book_inv (cols : list string) (book : string * cells)
    (df df' : DataFrame) :
  merge_book today_date cols book df = (df', Ok tt) ->
  exists df1,
    (if mem (fst book) (labels df) then df1 = df
     else
       List.length (columns df) = S (List.length cols) /\
       df1 = mkFrame (columns df)
               (rows df ++
                  [(fst book,
                    combine (columns df)
                      (VStr (fst book)
                         :: map (fun c => lookup c (snd book)) cols))])) /\
    mem "best_price" cols = true /\
    (if is_None (lookup "best_price" (snd book)) then df' = df1
     else
       mem "best_price" (columns df1) = true /\
       exists better,
         qualifies (lookup "best_price" (snd book))
                   (matching (fst book) "best_price" df1) = Ok better /\
         df' = if better then overwritten today_date (fst book) (snd book) df1
               else df1).
Proof.
  intro H. unfold merge_book, bind, get, lift, ret, modify in H.
  match type of H with
  | (let (_, _) := ?seeding in _) = _ =>
      destruct seeding as [df1 [[]|e]] eqn:E; [|discriminate]
  end.
  exists df1. split.
  { destruct (mem (fst book) (labels df)).
    - injection E as <-. reflexivity.
    - unfold loc_setitem_row in E.
      destruct (Nat.eqb _ _) eqn:El; [|discriminate].
      injection E as <-. split; [|reflexivity].
      apply Nat.eqb_eq in El. cbn [List.length] in El.
      rewrite length_map in El. symmetry. exact El. }
  clear E. unfold getattr in H.
  destruct (mem "best_price" cols); [|discriminate]. split; [reflexivity|].
  destruct (is_None (lookup "best_price" (snd book))).
  { injection H as <-. reflexivity. }
  unfold loc_getitem in H.
  destruct (mem "best_price" (columns df1)); [|discriminate].
  split; [reflexivity|].
  destruct (matching (fst book) "best_price" df1) as [|c found] eqn:Hm;
    [discriminate|].
  destruct (qualifies _ (c :: found)) as [better|e]; [|discriminate].
  exists better. split; [reflexivity|].
  destruct better.
  - destruct (mem "title" cols); [|discriminate].
    destruct (mem "best_store" cols); [|discriminate].
    destruct (mem "discount" cols); [|discriminate].
    injection H as <-. reflexivity.
  - injection H as <-. reflexivity.
Qed.

Lemma labels_loc_setitem (k c : string) (v : cell) (df : DataFrame) :
  labels (loc_setitem k c v df) = labels df.
Proof.
  unfold labels, loc_setitem. cbn [rows]. rewrite map_map.
  apply map_ext. intro r. cbn beta.
  destruct (String.eqb _ _); reflexivity.
Qed.

Lemma labels_overwritten (k : string) (b : cells) (df : DataFrame) :
  labels (overwritten today_date k b df) = labels df.
Proof.
  unfold overwritten. repeat rewrite labels_loc_setitem. reflexivity.
Qed.

Lemma merge_book_labels (cols : list string) (book : string * cells)
    (df df' : DataFrame) :
  merge_book today_date cols book df = (df', Ok tt) ->
  labels df' =
  (labels df ++ if mem (fst book) (labels df) then [] else [fst book])%list.
Proof.
  intro H. destruct (merge_book_inv _ _ _ _ H) as (df1 & Hseed & _ & Hrest).
  assert (H1 : labels df1 =
    (labels df ++ if mem (fst book) (labels df) then [] else [fst book])%list).
  { destruct (mem (fst book) (labels df)).
    - subst df1. rewrite app_nil_r. reflexivity.
    - destruct Hseed as [_ ->]. unfold labels. cbn [rows].
      rewrite map_app. reflexivity. }
  rewrite <- H1.
  destruct (is_None _); [subst; reflexivity|].
  destruct Hrest as (_ & better & _ & ->).
  destruct better; [apply labels_overwritten | reflexivity].
Qed.

Lemma merge_books_labels (cols : list string) (books : list (string * cells)) :
  forall df df',
  merge_books today_date cols books df = (df', Ok tt) ->
  labels df' = (labels df ++ new_labels (labels df) (map fst books))%list.
Proof.
  induction books as [|book rest IH]; intros df df' H.
  - injection H as <-. cbn. rewrite app_nil_r. reflexivity.
  - destruct (merge_books_cons _ _ _ _ _ _ H) as (df1 & H1 & H2).
    rewrite (IH df1 df' H2), (merge_book_labels _ _ _ _ H1).
    cbn [map new_labels].
    destruct (mem (fst book) (labels df)).
    + rewrite app_nil_r. reflexivity.
    + rewrite <- app_assoc. reflexivity.
Qed.

Lemma labels_add_column (c : string) (rs : list (string * cells))
    (vs : list cell) :
  map fst (add_column c rs vs) = map fst rs.
Proof.
  revert vs. induction rs as [|r rs IH]; intro vs; [reflexivity|].
  cbn. rewrite IH. reflexivity.
Qed.

Lemma new_labels_cover (l seen : list string) (k : string) :
  In k l -> In k (seen ++ new_labels seen l).
Proof.
  revert seen. induction l as [|x l IH]; intros seen Hin; [destruct Hin|].
  cbn [new_labels]. destruct Hin as [-> | Hin].
  - destruct (mem k seen) eqn:E.
    + apply in_or_app. left. apply mem_In. exact E.
    + apply in_or_app. right. left. reflexivity.
  - destruct (mem x seen).
    + apply IH. exact Hin.
    + specialize (IH (seen ++ [x])%list Hin).
      rewrite <- app_assoc in IH. exact IH.
Qed.

(** X11. A merge that returns keeps every ledger row at its place and
    appends one row for each book of today's table that the ledger did not
    have, in the order of the table: the index of the returned ledger is the
    given index followed by the new labels, and holds every label of today's
    table. *)
Theorem update_historical_data_index
    (df_books df df' : DataFrame) :
  update_historical_data today_date df_books df = (df', Ok tt) ->
  labels df' = (labels df ++ new_labels (labels df) (labels df_books))%list /\
  forall k, In k (labels df_books) -> In k (labels df').
Proof.
  intro H.
  assert (Hl : labels df' =
    (labels df ++ new_labels (labels df) (labels df_books))%list).
  { unfold update_historical_data, bind, get, lift, ret, modify in H.
    destruct (merge_books today_date (columns df_books) (rows df_books) df)
      as [dfl [[]|e]] eqn:Hloop; [|discriminate].
    pose proof (merge_books_labels _ _ _ _ Hloop) as Hlab.
    destruct (mem today_date (columns dfl)).
    - injection H as <-. exact Hlab.
    - destruct (getitem "best_price" df_books); [|discriminate].
      unfold insert in H.
      destruct (mem today_date (columns dfl)); [discriminate|].
      destruct (align _ _) as [vs|e]; [|discriminate]. cbn [rbind] in H.
      destruct (Nat.ltb _ _); [discriminate|].
      injection H as <-. unfold labels at 1. cbn [rows].
      rewrite labels_add_column. exact Hlab. }
  split; [exact Hl|].
  intros k Hk. rewrite Hl. apply new_labels_cover. exact Hk.
Qed.

(** X12. On a ledger with the running-best columns, a merge that returns
    keeps every column, in order, and the returned ledger has the date
    column: the columns are the given ones, with the date inserted at
    position 9 when it was not among them. *)
Theorem update_historical_data_columns (df_books df df' : DataFrame) :
  ledger_schema df = true ->
  update_historical_data today_date df_books df = (df', Ok tt) ->
  columns df' =
    (if mem today_date (columns df) then columns df
     else with_date_column today_date (columns df)) /\
  In today_date (columns df') /\
  forall c, In c (columns df) -> In c (columns df').
Proof.
  intros Hs H.
  destruct (update_historical_data_rows _ _ _ _ Hs H)
    as [(Ht & Hc & _) | (Ht & Hc & _)]; rewrite Ht, Hc.
  - split; [reflexivity|]. split; [apply mem_In; exact Ht | auto].
  - split; [reflexivity|].
    split; [apply In_with_date_column; auto|].
    intros c Hin. apply In_with_date_column. auto.
Qed.

(** X13. On a ledger with the running-best columns, a merge that returns
    changes no cell of a row the ledger had outside the four running-best
    columns and the date column: the identity columns and the columns of
    earlier dates are as they were, for every book. *)
Theorem update_historical_data_other_cells
    (df_books df df' : DataFrame) (i : nat) (k : string) (r : cells) :
  ledger_schema df = true ->
  update_historical_data today_date df_books df = (df', Ok tt) ->
  nth_error (rows df) i = Some (k, r) ->
  exists r',
    nth_error (rows df') i = Some (k, r') /\
    forall c, ~ In c running_best_fields -> c <> today_date ->
              lookup c r' = lookup c r.
Proof.
  intros Hs H Hi.
  destruct (update_historical_data_rows _ _ _ _ Hs H)
    as [(_ & _ & Hr) | (_ & _ & Hr)].
  - eexists. split; [apply Hr; exact Hi|].
    intros c Hc _. apply merged_row_other. exact Hc.
  - destruct (Hr i k r Hi) as (v & Hv & _).
    eexists. split; [exact Hv|].
    intros c Hc Hd. rewrite lookup_cons_other by exact Hd.
    apply merged_row_other. exact Hc.
Qed.

Lemma merged_row_dated (k : string) (books : list (string * cells)) :
  forall r,
  merged_row today_date k books r = r \/
  lookup "best_date" (merged_row today_date k books r) = VStr today_date.
Proof.
  unfold merged_row.
  induction books as [|book rest IH]; intro r; [left; reflexivity|].
  cbn [fold_left].
  destruct (String.eqb (fst book) k); [|apply IH].
  unfold merge_row.
  destruct (is_None _); [apply IH|].
  destruct (qualifies _ _) as [[|]|]; try apply IH.
  right.
  assert (Hstamp : forall l r0,
    lookup "best_date" r0 = VStr today_date ->
    lookup "best_date"
      (fold_left
         (fun r1 book0 =>
            if String.eqb (fst book0) k
            then merge_row today_date (snd book0) r1 else r1) l r0)
    = VStr today_date).
  { clear. induction l as [|b0 l IHl]; intros r0 H0; [exact H0|].
    cbn [fold_left]. apply IHl.
    destruct (String.eqb (fst b0) k); [|exact H0].
    unfold merge_row. destruct (is_None _); [exact H0|].
    destruct (qualifies _ _) as [[|]|]; try exact H0. reflexivity. }
  apply Hstamp. reflexivity.
Qed.

(** X14. On a ledger with the running-best columns, a merge that returns
    leaves on each row the ledger had either the four running-best cells as
    they were or today's date as best date: no running-best cell changes
    without the best date being set to today. *)
Theorem update_historical_data_change_is_dated
    (df_books df df' : DataFrame) (i : nat) (k : string) (r : cells) :
  ledger_schema df = true ->
  update_historical_data today_date df_books df = (df', Ok tt) ->
  nth_error (rows df) i = Some (k, r) ->
  exists r',
    nth_error (rows df') i = Some (k, r') /\
    ((forall c, In c running_best_fields -> lookup c r' = lookup c r) \/
     lookup "best_date" r' = VStr today_date).
Proof.
  intros Hs H Hi.
  assert (Hbd : In "best_date" running_best_fields) by (cbn; auto 6).
  destruct (update_historical_data_rows _ _ _ _ Hs H)
    as [(_ & _ & Hr) | (Ht & _ & Hr)].
  - eexists. split; [apply Hr; exact Hi|].
    destruct (merged_row_dated k (rows df_books) r) as [-> | Hd]; auto.
  - destruct (Hr i k r Hi) as (v & Hv & _).
    eexists. split; [exact Hv|].
    pose proof (today_not_running_best today_date df Hs Ht) as Hnot.
    assert (Hpass : forall c x, In c running_best_fields ->
              lookup c ((today_date, v) :: x) = lookup c x).
    { intros c x Hc. apply lookup_cons_other. intros ->. contradiction. }
    destruct (merged_row_dated k (rows df_books) r) as [-> | Hd].
    + left. intros c Hc. apply Hpass. exact Hc.
    + right. rewrite Hpass by exact Hbd. exact Hd.
Qed.

Lemma assoc_unique {A} (l : list (string * A)) (k : string) (x : A) :
  has_duplicates (map fst l) = false -> In (k, x) l -> assoc k l = Some x.
Proof.
  induction l as [|[k' y] l IH]; intros Hd Hin; [destruct Hin|].
  cbn in Hd. apply orb_false_elim in Hd. destruct Hd as [Hk' Hd].
  cbn. destruct Hin as [E | Hin].
  - injection E as -> ->. rewrite String.eqb_refl. reflexivity.
  - destruct (String.eqb k k') eqn:E; [|apply IH; assumption].
    apply String.eqb_eq in E. subst k'. exfalso.
    assert (Hmem : mem k (map fst l) = true)
      by (apply mem_In; apply in_map_iff; exists (k, x); auto).
    congruence.
Qed.

Lemma align_present (value : list (string * cell)) (index : list string)
    (vs : list cell) (i : nat) (k : string) (x : cell) :
  align value index = Ok vs ->
  nth_error index i = Some k ->
  has_duplicates (map fst value) = false ->
  In (k, x) value ->
  nth i vs NaN = x.
Proof.
  unfold align. intros H Hi Hd Hin.
  pose proof (assoc_unique value k x Hd Hin) as Hassoc.
  destruct (list_eqb (map fst value) index) eqn:E.
  - apply list_eqb_eq in E. injection H as <-. subst index.
    apply nth_error_nth.
    destruct (nth_error value i) as [[k' y]|] eqn:Hv.
    + rewrite (map_nth_error fst _ _ Hv) in Hi. injection Hi as ->.
      rewrite (map_nth_error snd _ _ Hv). cbn.
      pose proof (assoc_unique value k y Hd (nth_error_In _ _ Hv)) as Hy.
      congruence.
    + apply nth_error_None in Hv.
      assert (Hlt : (i < List.length (map fst value))%nat)
        by (apply nth_error_Some; rewrite Hi; discriminate).
      rewrite length_map in Hlt. lia.
  - rewrite Hd in H. injection H as <-.
    apply nth_error_nth. rewrite (map_nth_error _ _ _ Hi).
    unfold lookup. rewrite Hassoc. reflexivity.
Qed.

(** A merge that inserts the date column, step by step. *)
Lemma update_historical_data_insert (df_books df df' : DataFrame) :
  ledger_schema df = true ->
  mem today_date (columns df) = false ->
  update_historical_data today_date df_books df = (df', Ok tt) ->
  (9 <= List.length (columns df))%nat /\
  exists dfl vs,
    merge_books today_date (columns df_books) (rows df_books) df
    = (dfl, Ok tt) /\
    mem "best_price" (columns df_books) = true /\
    align (map (fun r => (fst r, lookup "best_price" (snd r))) (rows df_books))
          (labels dfl) = Ok vs /\
    rows df' = add_column today_date (rows dfl) vs.
Proof.
  intros Hs Ht H.
  unfold update_historical_data, bind, get, lift, ret, modify in H.
  destruct (merge_books today_date (columns df_books) (rows df_books) df)
    as [dfl [[]|e]] eqn:Hloop; [|discriminate].
  destruct (merge_books_rows _ _ _ _ _ Hs Hloop) as (Hc & _).
  rewrite Hc, Ht in H. unfold getitem in H.
  destruct (mem "best_price" (columns df_books)); [|discriminate].
  unfold insert in H. rewrite Hc, Ht in H.
  destruct (align _ (labels dfl)) as [vs|e] eqn:Hal; [|discriminate].
  cbn [rbind] in H.
  destruct (Nat.ltb _ _) eqn:Hlt; [discriminate|].
  injection H as <-. split.
  - apply Nat.ltb_ge in Hlt. exact Hlt.
  - exists dfl, vs. auto.
Qed.

(** X15. On a ledger with the running-best columns and no column for the
    date, and a table of today without repeated identifiers, a merge that
    returns writes in the date column of each row the ledger had the best
    price today's table has for that book. *)
Theorem update_historical_data_date_cell
    (df_books df df' : DataFrame) (i : nat) (k : string) (r b : cells) :
  ledger_schema df = true ->
  mem today_date (columns df) = false ->
  has_duplicates (labels df_books) = false ->
  update_historical_data today_date df_books df = (df', Ok tt) ->
  nth_error (rows df) i = Some (k, r) ->
  In (k, b) (rows df_books) ->
  exists r',
    nth_error (rows df') i = Some (k, r') /\
    lookup today_date r' = lookup "best_price" b.
Proof.
  intros Hs Ht Hd H Hi Hb.
  destruct (update_historical_data_insert _ _ _ Hs Ht H)
    as (_ & dfl & vs & Hloop & _ & Hal & Hrows).
  destruct (merge_books_rows _ _ _ _ _ Hs Hloop) as (_ & Hr).
  pose proof (Hr i k r Hi) as Hil.
  eexists. split.
  - rewrite Hrows. apply nth_error_add_column. exact Hil.
  - unfold lookup at 1. cbn [assoc]. rewrite String.eqb_refl.
    eapply align_present with (index := labels dfl) (k := k).
    + exact Hal.
    + unfold labels. rewrite (map_nth_error fst _ _ Hil). reflexivity.
    + rewrite map_map. exact Hd.
    + apply in_map_iff. exists (k, b). auto.
Qed.

(** X16. On a ledger with the running-best columns and no column for the
    date, the merge returns only when the ledger has at least 9 columns:
    the insert position is fixed. *)
Theorem update_historical_data_needs_nine_columns
    (df_books df df' : DataFrame) :
  ledger_schema df = true ->
  mem today_date (columns df) = false ->
  update_historical_data today_date df_books df = (df', Ok tt) ->
  (9 <= List.length (columns df))%nat.
Proof.
  intros Hs Ht H.
  exact (proj1 (update_historical_data_insert _ _ _ Hs Ht H)).
Qed.

Lemma merge_books_seeds_fitting (cols : list string)
    (books : list (string * cells)) :
  forall df df',
  ledger_schema df = true ->
  merge_books today_date cols books df = (df', Ok tt) ->
  forall k, In k (map fst books) -> mem k (labels df) = false ->
  List.length (columns df) = S (List.length cols).
Proof.
  induction books as [|book rest IH]; intros df df' Hs H k Hin Hk;
    [destruct Hin|].
  destruct (merge_books_cons _ _ _ _ _ _ H) as (df1 & H1 & H2).
  destruct (merge_book_step _ _ _ _ _ Hs H1) as (Hc1 & _).
  destruct (mem (fst book) (labels df)) eqn:Hm.
  - destruct Hin as [E | Hin]; [subst k; congruence|].
    rewrite <- Hc1.
    apply (IH df1 df' ltac:(rewrite (ledger_schema_columns _ _ Hc1); exact Hs)
             H2 k Hin).
    rewrite (merge_book_labels _ _ _ _ H1), Hm, app_nil_r. exact Hk.
  - destruct (merge_book_inv _ _ _ _ H1) as (d1 & Hseed & _).
    rewrite Hm in Hseed. exact (proj1 Hseed).
Qed.

(** X17. On a ledger with the running-best columns, a merge that returns
    with a book the ledger did not have shows that the ledger has exactly
    one column more than today's table: the row tuple, index label first,
    is laid on the ledger's columns by position and must fit. *)
Theorem update_historical_data_new_book_needs_fit
    (df_books df df' : DataFrame) (k : string) :
  ledger_schema df = true ->
  update_historical_data today_date df_books df = (df', Ok tt) ->
  In k (labels df_books) ->
  mem k (labels df) = false ->
  List.length (columns df) = S (List.length (columns df_books)).
Proof.
  intros Hs H Hin Hk.
  unfold update_historical_data, bind in H.
  destruct (merge_books today_date (columns df_books) (rows df_books) df)
    as [dfl [[]|e]] eqn:Hloop; [|discriminate].
  exact (merge_books_seeds_fitting _ _ _ _ Hs Hloop k Hin Hk).
Qed.

Lemma merge_books_priced_needs_column (cols : list string)
    (books : list (string * cells)) :
  forall df df',
  merge_books today_date cols books df = (df', Ok tt) ->
  (exists book, In book books /\ is_None (lookup "best_price" (snd book)) = false) ->
  mem "best_price" (columns df) = true.
Proof.
  induction books as [|book rest IH]; intros df df' H (b0 & Hin & Hp);
    [destruct Hin|].
  destruct (merge_books_cons _ _ _ _ _ _ H) as (df1 & H1 & H2).
  destruct (merge_book_inv _ _ _ _ H1) as (d1 & Hseed & _ & Hrest).
  assert (Hc : columns d1 = columns df).
  { destruct (mem (fst book) (labels df)); [subst; reflexivity|].
    destruct Hseed as [_ ->]. reflexivity. }
  destruct (is_None (lookup "best_price" (snd book))) eqn:Hn.
  - subst df1. rewrite <- Hc. apply (IH d1 df' H2).
    destruct Hin as [<- | Hin]; [congruence|]. exists b0. auto.
  - rewrite <- Hc. exact (proj1 Hrest).
Qed.

(** X18. A merge that returns with a book of today's table whose best price
    is not [None] shows that the ledger has a "best_price" column: without
    it the read of the ledger's best price raises. *)
Theorem update_historical_data_needs_best_price
    (df_books df df' : DataFrame) (k : string) (b : cells) :
  update_historical_data today_date df_books df = (df', Ok tt) ->
  In (k, b) (rows df_books) ->
  is_None (lookup "best_price" b) = false ->
  mem "best_price" (columns df) = true.
Proof.
  intros H Hin Hp.
  unfold update_historical_data, bind in H.
  destruct (merge_books today_date (columns df_books) (rows df_books) df)
    as [dfl [[]|e]] eqn:Hloop; [|discriminate].
  apply (merge_books_priced_needs_column _ _ _ _ Hloop).
  exists (k, b). auto.
Qed.

Lemma merge_books_unquoted (cols : list string) (books : list (string * cells))
    (df : DataFrame) :
  mem "best_price" cols = true ->
  (forall book, In book books ->
     mem (fst book) (labels df) = true /\
     lookup "best_price" (snd book) = VNone) ->
  merge_books today_date cols books df = (df, Ok tt).
Proof.
  intros Hcol. induction books as [|book rest IH]; intro Hall; [reflexivity|].
  change (bind (merge_book today_date cols book)
               (fun _ => merge_books today_date cols rest) df = (df, Ok tt)).
  destruct (Hall book (or_introl eq_refl)) as [Hm Hn].
  assert (Hstep : merge_book today_date cols book df = (df, Ok tt)).
  { unfold merge_book, bind, get, lift, ret, modify, getattr.
    rewrite Hm, Hcol, Hn. reflexivity. }
  unfold bind. rewrite Hstep. apply IH.
  intros b0 Hin. apply Hall. right. exact Hin.
Qed.

(** X19. On a ledger that has the date column, a table of today whose
    books are all in the ledger and all without a best price changes
    nothing: the merge returns the ledger it was given. *)
Theorem update_historical_data_unquoted_rerun (df_books df : DataFrame) :
  mem today_date (columns df) = true ->
  mem "best_price" (columns df_books) = true ->
  (forall book, In book (rows df_books) ->
     mem (fst book) (labels df) = true /\
     lookup "best_price" (snd book) = VNone) ->
  update_historical_data today_date df_books df = (df, Ok tt).
Proof.
  intros Ht Hcol Hall.
  unfold update_historical_data, bind.
  rewrite (merge_books_unquoted _ _ df Hcol Hall).
  unfold get. rewrite Ht. reflexivity.
Qed.

End MergeShape.

(** In a merged row nothing changes when no book of the table has a price. *)
Lemma merged_row_unquoted (today_date k : string)
    (books : list (string * cells)) (r : cells) :
  (forall book, In book books -> lookup "best_price" (snd book) = VNone) ->
  merged_row today_date k books r = r.
Proof.
  unfold merged_row. revert r.
  induction books as [|book rest IH]; intros r Hall; [reflexivity|].
  cbn [fold_left].
  assert (Hstep : (if String.eqb (fst book) k
                   then merge_row today_date (snd book) r else r) = r).
  { destruct (String.eqb (fst book) k); [|reflexivity].
    unfold merge_row. rewrite (Hall book (or_introl eq_refl)). reflexivity. }
  rewrite Hstep. apply IH. intros b0 Hin. apply Hall. right. exact Hin.
Qed.

(** ** The readers *)

Section ReaderFacts.

Variable str_of : cell -> string.

Lemma In_columns_setitem_scalar (c c' : string) (v : cell) (df : DataFrame) :
  In c (columns (setitem_scalar c' v df)) <-> In c (columns df) \/ c = c'.
Proof.
  unfold setitem_scalar. cbn [columns].
  destruct (mem c' (columns df)) eqn:E.
  - apply mem_In in E. split; [auto|]. intros [H | ->]; assumption.
  - rewrite in_app_iff. cbn. intuition auto.
Qed.

(** X20. For a catalog file with an "isbn" column [read_books] returns a
    table with as many rows, in the same order: each row is labelled by the
    string of its identifier and holds that string as its "isbn"; its best
    price, best store and discount are [None], whatever the file held under
    those names; its other cells are the file's. The file's columns are
    kept and the three working columns are there. *)
Theorem read_books_rows (csv : DataFrame) (i : nat) (r : string * cells) :
  mem "isbn" (columns csv) = true ->
  nth_error (rows csv) i = Some r ->
  exists df r',
    read_books str_of csv = Ok df /\
    List.length (rows df) = List.length (rows csv) /\
    nth_error (rows df) i = Some (str_of (lookup "isbn" (snd r)), r') /\
    lookup "isbn" r' = VStr (str_of (lookup "isbn" (snd r))) /\
    lookup "best_price" r' = VNone /\
    lookup "best_store" r' = VNone /\
    lookup "discount" r' = VNone /\
    (forall c, c <> "isbn" -> c <> "best_price" -> c <> "best_store" ->
               c <> "discount" -> lookup c r' = lookup c (snd r)) /\
    (forall c, In c (columns csv) -> In c (columns df)) /\
    In "best_price" (columns df) /\
    In "best_store" (columns df) /\
    In "discount" (columns df).
Proof.
  intros Hisbn Hi. unfold read_books. rewrite Hisbn.
  eexists. eexists. split; [reflexivity|].
  split; [cbn [rows setitem_scalar]; repeat rewrite length_map; reflexivity|].
  split.
  { cbn [rows setitem_scalar]. repeat rewrite map_map.
    rewrite (map_nth_error _ _ _ Hi). cbn [fst snd]. reflexivity. }
  split; [reflexivity|]. split; [reflexivity|]. split; [reflexivity|].
  split; [reflexivity|]. split.
  { intros c H1 H2 H3 H4. repeat rewrite lookup_cons_other by assumption.
    reflexivity. }
  split.
  { intros c Hc. repeat (apply In_columns_setitem_scalar; left). exact Hc. }
  split; [|split].
  - do 2 (apply In_columns_setitem_scalar; left).
    apply In_columns_setitem_scalar. right. reflexivity.
  - apply In_columns_setitem_scalar; left.
    apply In_columns_setitem_scalar. right. reflexivity.
  - apply In_columns_setitem_scalar. right. reflexivity.
Qed.

(** X21. For a ledger file with an "isbn" column [read_historical_data]
    returns the file's columns and rows, in order: each row is labelled by
    the string of its identifier, holds that string as its "isbn", and keeps
    every other cell, the running-best ones and the dated ones included. *)
Theorem read_historical_data_rows
    (csv : DataFrame) (i : nat) (r : string * cells) :
  mem "isbn" (columns csv) = true ->
  nth_error (rows csv) i = Some r ->
  exists df r',
    read_historical_data str_of csv = Ok df /\
    columns df = columns csv /\
    List.length (rows df) = List.length (rows csv) /\
    nth_error (rows df) i = Some (str_of (lookup "isbn" (snd r)), r') /\
    lookup "isbn" r' = VStr (str_of (lookup "isbn" (snd r))) /\
    (forall c, c <> "isbn" -> lookup c r' = lookup c (snd r)).
Proof.
  intros Hisbn Hi. unfold read_historical_data. rewrite Hisbn.
  eexists. eexists. split; [reflexivity|]. split; [reflexivity|].
  split; [cbn [rows]; rewrite length_map; reflexivity|].
  split; [cbn [rows]; rewrite (map_nth_error _ _ _ Hi); reflexivity|].
  split; [cbn; unfold lookup; cbn; reflexivity|].
  intros c Hc. cbn. apply lookup_cons_other. exact Hc.
Qed.

Lemma read_books_unquoted (csv df : DataFrame) :
  read_books str_of csv = Ok df ->
  forall book, In book (rows df) -> lookup "best_price" (snd book) = VNone.
Proof.
  unfold read_books. destruct (mem "isbn" (columns csv)); [|discriminate].
  intro E. injection E as <-. cbn [rows setitem_scalar].
  repeat rewrite map_map. intros book Hin.
  apply in_map_iff in Hin. destruct Hin as (r & <- & _). reflexivity.
Qed.

(** X22. The table [read_books] returns, merged as it is (no store asked)
    into a ledger with the running-best columns: when the merge returns,
    every row the ledger had keeps all the cells it had. *)
Theorem read_books_then_merge_keeps_rows
    (today_date : string) (csv df_books df df' : DataFrame)
    (i : nat) (k : string) (r : cells) :
  read_books str_of csv = Ok df_books ->
  ledger_schema df = true ->
  update_historical_data today_date df_books df = (df', Ok tt) ->
  nth_error (rows df) i = Some (k, r) ->
  exists r',
    nth_error (rows df') i = Some (k, r') /\
    forall c, In c (columns df) -> lookup c r' = lookup c r.
Proof.
  intros Hread Hs H Hi.
  assert (Hm : merged_row today_date k (rows df_books) r = r)
    by (apply merged_row_unquoted; exact (read_books_unquoted csv df_books Hread)).
  destruct (update_historical_data_rows _ _ _ _ Hs H)
    as [(_ & _ & Hr) | (Ht & _ & Hr)].
  - exists r. split; [rewrite <- Hm at 1; apply Hr; exact Hi | auto].
  - destruct (Hr i k r Hi) as (v & Hv & _). rewrite Hm in Hv.
    eexists. split; [exact Hv|].
    intros c Hc. apply (lookup_date_cell today_date c v r df Ht Hc).
Qed.

End ReaderFacts.

(** ** Runs for the further properties *)

(** A new book without a quote joins the two books of the ledger. *)
Lemma update_historical_data_index_witness :
  labels (fst (update_historical_data march_2 books_with_unquoted_new_book
                 ledger_two_books))
  = ["9789720000000"; "9789720000002"; "9789720000001"].
Proof.
  rewrite (proj1 (update_historical_data_index march_2
                    books_with_unquoted_new_book ledger_two_books
                    (fst (update_historical_data march_2
                            books_with_unquoted_new_book ledger_two_books))
                    ltac:(vm_compute; reflexivity))).
  vm_compute. reflexivity.
Defined.

(** The columns after the first run of the day. *)
Lemma update_historical_data_columns_witness :
  columns ledger_after_first_run = (ledger_columns ++ [march_2])%list /\
  In march_2 (columns ledger_after_first_run).
Proof.
  destruct (update_historical_data_columns march_2 books_at_9 ledger_two_books
              ledger_after_first_run)
    as (Hc & Hin & _); try (vm_compute; reflexivity).
  split; [rewrite Hc; vm_compute; reflexivity | exact Hin].
Defined.

(** The title of the first book after it was found at 9.00. *)
Lemma update_historical_data_other_cells_witness :
  exists r',
    nth_error (rows ledger_after_first_run) 0 = Some ("9789720000000", r') /\
    lookup "title" r' = VStr "Os Maias".
Proof.
  pose (r := match nth_error (rows ledger_two_books) 0 with
             | Some row => snd row
             | None => []
             end).
  destruct (update_historical_data_other_cells march_2 books_at_9
              ledger_two_books ledger_after_first_run 0 "9789720000000" r)
    as (r' & Hr' & Hsame); try (vm_compute; reflexivity).
  exists r'. split; [exact Hr'|]. rewrite Hsame.
  - vm_compute. reflexivity.
  - cbn. intros [H | [H | [H | [H | []]]]]; discriminate.
  - discriminate.
Defined.

(** The first book after it was found at 9.00: changed, and dated. *)
Lemma update_historical_data_change_is_dated_witness :
  exists r',
    nth_error (rows ledger_after_first_run) 0 = Some ("9789720000000", r') /\
    ((forall c, In c running_best_fields ->
                lookup c r' =
                lookup c (match nth_error (rows ledger_two_books) 0 with
                          | Some row => snd row
                          | None => []
                          end)) \/
     lookup "best_date" r' = VStr march_2).
Proof.
  apply (update_historical_data_change_is_dated march_2 books_at_9
           ledger_two_books ledger_after_first_run 0 "9789720000000");
    vm_compute; reflexivity.
Defined.

(** The date cell of the first book after it was found at 9.00. *)
Lemma update_historical_data_date_cell_witness :
  exists r',
    nth_error (rows ledger_after_first_run) 0 = Some ("9789720000000", r') /\
    lookup march_2 r' = VFloat 9.
Proof.
  pose (r := match nth_error (rows ledger_two_books) 0 with
             | Some row => snd row
             | None => []
             end).
  pose (b := match nth_error (rows books_at_9) 0 with
             | Some row => snd row
             | None => []
             end).
  destruct (update_historical_data_date_cell march_2 books_at_9
              ledger_two_books ledger_after_first_run 0 "9789720000000" r b)
    as (r' & Hr' & Hcell); try (vm_compute; reflexivity).
  - left. vm_compute. reflexivity.
  - exists r'. split; [exact Hr'|]. rewrite Hcell. vm_compute. reflexivity.
Defined.

(** The ledger of two books has the nine columns the insert needs. *)
Lemma update_historical_data_needs_nine_columns_witness :
  (9 <= List.length (columns ledger_two_books))%nat.
Proof.
  apply (update_historical_data_needs_nine_columns march_2 books_at_9
           ledger_two_books ledger_after_first_run);
    vm_compute; reflexivity.
Defined.

(** A new book fits the ledger that has no date column yet. *)
Lemma update_historical_data_new_book_needs_fit_witness :
  List.length (columns ledger_two_books)
  = S (List.length (columns books_with_unquoted_new_book)).
Proof.
  apply (update_historical_data_new_book_needs_fit march_2
           books_with_unquoted_new_book ledger_two_books
           (fst (update_historical_data march_2 books_with_unquoted_new_book
                   ledger_two_books))
           "9789720000001"); try (vm_compute; reflexivity).
  left. reflexivity.
Defined.

(** The ledger of two books has the column the comparison reads. *)
Lemma update_historical_data_needs_best_price_witness :
  mem "best_price" (columns ledger_two_books) = true.
Proof.
  pose (b := match nth_error (rows books_at_9) 0 with
             | Some row => snd row
             | None => []
             end).
  apply (update_historical_data_needs_best_price march_2 books_at_9
           ledger_two_books ledger_after_first_run "9789720000000" b);
    try (vm_compute; reflexivity).
  left. vm_compute. reflexivity.
Defined.

(** A second run of the day in which no store has the book. *)
Lemma update_historical_data_unquoted_rerun_witness :
  update_historical_data march_2 books_unquoted ledger_after_first_run
  = (ledger_after_first_run, Ok tt).
Proof.
  apply (update_historical_data_unquoted_rerun march_2 books_unquoted
           ledger_after_first_run); try (vm_compute; reflexivity).
  intros book [<- | []]. split; vm_compute; reflexivity.
Defined.

(** The first line of the catalog file: the stray discount is reset. *)
Lemma read_books_rows_witness :
  exists df r',
    read_books str_of_identifier catalog_csv = Ok df /\
    nth_error (rows df) 0 = Some ("9789720000000", r') /\
    lookup "isbn" r' = VStr "9789720000000" /\
    lookup "discount" r' = VNone /\
    lookup "title" r' = VStr "Os Maias".
Proof.
  pose (r := match nth_error (rows catalog_csv) 0 with
             | Some row => row
             | None => ("", [])
             end).
  destruct (read_books_rows str_of_identifier catalog_csv 0 r)
    as (df & r' & Hread & _ & Hrow & Hisbn & _ & _ & Hdisc & Hother & _);
    try (vm_compute; reflexivity).
  exists df, r'. split; [exact Hread|]. split; [exact Hrow|].
  split; [exact Hisbn|]. split; [exact Hdisc|].
  rewrite Hother by discriminate. vm_compute. reflexivity.
Defined.

(** The line of the ledger file: the running best price is kept. *)
Lemma read_historical_data_rows_witness :
  exists df r',
    read_historical_data str_of_identifier ledger_csv = Ok df /\
    nth_error (rows df) 0 = Some ("9789720000000", r') /\
    lookup "best_price" r' = VFloat 10.
Proof.
  pose (r := match nth_error (rows ledger_csv) 0 with
             | Some row => row
             | None => ("", [])
             end).
  destruct (read_historical_data_rows str_of_identifier ledger_csv 0 r)
    as (df & r' & Hread & _ & _ & Hrow & _ & Hother);
    try (vm_compute; reflexivity).
  exists df, r'. split; [exact Hread|]. split; [exact Hrow|].
  rewrite Hother by discriminate. vm_compute. reflexivity.
Defined.

(** The catalog file merged without any store pass: the first book of the
    ledger keeps its best price. *)
Lemma read_books_then_merge_keeps_rows_witness :
  exists df_books df' r',
    read_books str_of_identifier catalog_csv = Ok df_books /\
    update_historical_data march_2 df_books ledger_after_first_run
    = (df', Ok tt) /\
    nth_error (rows df') 0 = Some ("9789720000000", r') /\
    lookup "best_price" r' = VFloat 9.
Proof.
  pose (df_books := match read_books str_of_identifier catalog_csv with
                    | Ok d => d
                    | Raise _ => mkFrame [] []
                    end).
  pose (df' := fst (update_historical_data march_2 df_books
                      ledger_after_first_run)).
  pose (r := match nth_error (rows ledger_after_first_run) 0 with
             | Some row => snd row
             | None => []
             end).
  assert (Hread : read_books str_of_identifier catalog_csv = Ok df_books)
    by (vm_compute; reflexivity).
  assert (Hrun : update_historical_data march_2 df_books ledger_after_first_run
                 = (df', Ok tt)) by (vm_compute; reflexivity).
  destruct (read_books_then_merge_keeps_rows str_of_identifier march_2
              catalog_csv df_books ledger_after_first_run df'
              0 "9789720000000" r Hread)
    as (r' & Hr' & Hsame); try (vm_compute; reflexivity).
  exists df_books, df', r'. split; [exact Hread|]. split; [exact Hrun|].
  split; [exact Hr'|]. rewrite Hsame; [vm_compute; reflexivity|].
  vm_compute. auto 10.
Defined.

(** ** The store loop on the table *)


Lemma apply_rows_nth (f : M Row unit) (df : list Row) :
  forall df' i r,
  apply_rows f df = Ok df' ->
  nth_error df i = Some r ->
  snd (f r) = Ok tt /\ nth_error df' i = Some (fst (f r)).
Proof.
  induction df as [|r0 rest IH]; intros df' i r H Hi.
  - destruct i; discriminate.
  - cbn [apply_rows] in H.
    destruct (f r0) as [r0' [[]|e]] eqn:E0; [|discriminate].
    destruct (apply_rows f rest) as [rest'|e] eqn:Er; [|discriminate].
    injection H as <-. destruct i as [|i]; cbn in Hi |- *.
    + injection Hi as <-. rewrite E0. auto.
    + exact (IH rest' i r eq_refl Hi).
Qed.

Lemma apply_rows_length (f : M Row unit) (df : list Row) :
  forall df', apply_rows f df = Ok df' -> List.length df' = List.length df.
Proof.
  induction df as [|r0 rest IH]; intros df' H.
  - injection H as <-. reflexivity.
  - cbn [apply_rows] in H.
    destruct (f r0) as [r0' [[]|e]]; [|discriminate].
    destruct (apply_rows f rest) as [rest'|e]; [|discriminate].
    injection H as <-. cbn. f_equal. apply IH. reflexivity.
Qed.

Lemma infer_best_price_length (df : list Row) :
  List.length (infer_best_price df) = List.length df.
Proof.
  unfold infer_best_price. destruct (existsb _ _); [|reflexivity].
  apply length_map.
Qed.

(** A row with a best price, and the row of a table of one, come out of
    the inference as they went in. *)
Lemma infer_best_price_kept (df : list Row) (i : nat) (r : Row) :
  nth_error df i = Some r ->
  has_best_price r = true \/ List.length df = 1%nat ->
  nth_error (infer_best_price df) i = Some r.
Proof.
  intros Hi Hkeep. unfold infer_best_price.
  destruct (existsb has_best_price df) eqn:E; [|exact Hi].
  rewrite (map_nth_error _ _ _ Hi).
  destruct (has_best_price r) eqn:Hr; [reflexivity|].
  destruct Hkeep as [Hk | Hlen]; [discriminate|].
  destruct df as [|r0 [|r1 df]]; try discriminate.
  destruct i as [|[|i]]; try discriminate. injection Hi as ->.
  cbn in E. rewrite Hr in E. discriminate.
Qed.

Lemma infer_best_price_nth (df : list Row) (i : nat) (r : Row) :
  nth_error df i = Some r ->
  nth_error (infer_best_price df) i = Some r \/
  (best_price r = None /\
   nth_error (infer_best_price df) i = Some (set_best_price (Some nan) r)).
Proof.
  intro Hi. unfold infer_best_price.
  destruct (existsb has_best_price df); [|left; exact Hi].
  rewrite (map_nth_error _ _ _ Hi). unfold has_best_price.
  destruct (best_price r); [left; reflexivity | right; auto].
Qed.

Section TableLoop.

Variable requests_get : string -> result Response.
Variable requests_post : string -> list (string * string) -> result Response.
Variable html_find : string -> string -> string * string -> option string.
Variable float_of_string : string -> option float.

Local Abbreviation price :=
  (get_price requests_get requests_post html_find float_of_string).
Local Abbreviation scrape :=
  (scrape_price_from_store requests_get requests_post html_find float_of_string).
Local Abbreviation pass :=
  (scrape_store requests_get requests_post html_find float_of_string).
Local Abbreviation loop :=
  (scrape_all_stores requests_get requests_post html_find float_of_string).

Lemma scrape_all_stores_cons (su : string * string)
    (rest : list (string * string)) (df t : list Row) :
  loop (su :: rest) df = Ok t ->
  exists df1, pass (fst su) (snd su) df = Ok df1 /\ loop rest df1 = Ok t.
Proof.
  destruct su as [s u]. cbn [scrape_all_stores fst snd].
  destruct (pass s u df) as [df1|e]; [|discriminate].
  intro H. exists df1. auto.
Qed.

(** One pass, seen from one row: the call returns, and the row of the new
    table is the row returned, or that row marked NaN when it has no best
    price. *)
Lemma scrape_store_row (su : string * string) (df df1 : list Row)
    (i : nat) (r : Row) :
  pass (fst su) (snd su) df = Ok df1 ->
  nth_error df i = Some r ->
  let r1 := fst (scrape (fst su) (snd su) r) in
  snd (scrape (fst su) (snd su) r) = Ok tt /\
  List.length df1 = List.length df /\
  (nth_error df1 i = Some r1 \/
   (best_price r1 = None /\
    nth_error df1 i = Some (set_best_price (Some nan) r1))) /\
  (has_best_price r1 = true \/ List.length df = 1%nat ->
   nth_error df1 i = Some r1).
Proof.
  intros Hp Hi. cbn zeta. unfold scrape_store in Hp.
  destruct (apply_rows _ df) as [returned|e] eqn:Ea; [|discriminate].
  injection Hp as <-.
  destruct (apply_rows_nth _ _ _ _ _ Ea Hi) as (Hok & Hr).
  pose proof (apply_rows_length _ _ _ Ea) as Hlen.
  split; [exact Hok|]. split.
  { rewrite infer_best_price_length. exact Hlen. }
  split; [apply infer_best_price_nth; exact Hr|].
  intro Hk. apply infer_best_price_kept; [exact Hr|].
  destruct Hk as [Hk | Hk]; [left; exact Hk | right; congruence].
Qed.

Lemma scrape_quoted_has_best_price (store store_url : string) (r : Row)
    (q : float) :
  price store store_url r = Ok (Some q) ->
  has_best_price (fst (scrape store store_url r)) = true.
Proof.
  intro Hq. rewrite scrape_price_from_store_unfold, Hq. unfold has_best_price.
  destruct (within_margin q (best_price r)) eqn:Hm.
  - destruct (discount_of q (default_price r)); reflexivity.
  - cbn. destruct (best_price r); [reflexivity | discriminate].
Qed.

(** The row of a book through the loop, when the inference never touches
    it: the book is alone in the table or every store quotes it. *)
Lemma scrape_all_stores_reaches (row : Row) (m : float) (i : nat)
    (stores : list (string * string)) :
  forall df t r,
  loop stores df = Ok t ->
  nth_error df i = Some r ->
  same_book row r ->
  best_yields_to m r ->
  List.length df = 1%nat \/ listed_everywhere price stores row ->
  (forall su, In su stores -> answers_below price row m su) ->
  best_price r = Some m \/ quoted_by price stores row m ->
  exists r', nth_error t i = Some r' /\ best_price r' = Some m.
Proof.
  induction stores as [|su rest IH];
    intros df t r Hloop Hi Hsame Hinv Hkeep Hall Hm.
  - injection Hloop as <-. exists r. split; [exact Hi|].
    destruct Hm as [Hm | (su & [] & _)]. exact Hm.
  - destruct (scrape_all_stores_cons _ _ _ _ Hloop) as (df1 & Hp & Hrest).
    destruct (scrape_store_row su df df1 i r Hp Hi)
      as (_ & Hlen & _ & Hrow).
    destruct (scrape_step requests_get requests_post html_find float_of_string
                row r m su Hsame Hinv (Hall su (or_introl eq_refl)))
      as (_ & Hsame1 & Hinv1 & Hstay & Hhit).
    assert (Hi1 : nth_error df1 i = Some (fst (scrape (fst su) (snd su) r))).
    { apply Hrow. destruct Hkeep as [Hone | Hlisted]; [right; exact Hone|].
      left. destruct (Hlisted su (or_introl eq_refl)) as (q & Hq).
      apply (scrape_quoted_has_best_price _ _ _ q).
      rewrite (get_price_isbn requests_get requests_post html_find
                 float_of_string (fst su) (snd su) r row (proj1 Hsame)).
      exact Hq. }
    apply (IH df1 t _ Hrest Hi1 Hsame1 Hinv1).
    + destruct Hkeep as [Hone | Hlisted]; [left; congruence|].
      right. intros su' Hin. apply Hlisted. right. exact Hin.
    + intros su' Hin. apply Hall. right. exact Hin.
    + destruct Hm as [Hm | (sm & [<- | Hin] & Hq)].
      * left. apply Hstay. exact Hm.
      * left. apply Hhit. exact Hq.
      * right. exists sm. auto.
Qed.

(** C4, amended. A book without a best price, alone in the catalog or
    quoted by every store, in runs of the store loop that return: when one
    store's quote [m] is such that every other quote of a store either
    equals it or exceeds it by more than the margin, the loop ends on the
    best price [m] in every processing order of the stores. *)
Theorem best_price_order_independent_when_separated
    (stores stores' : list (string * string)) (df_books t t' : list Row)
    (i : nat) (row : Row) (m : float) :
  Permutation stores stores' ->
  nth_error df_books i = Some row ->
  best_price row = None ->
  List.length df_books = 1%nat \/ listed_everywhere price stores row ->
  quoted_by price stores row m ->
  (forall su, In su stores -> answers_below price row m su) ->
  loop stores df_books = Ok t ->
  loop stores' df_books = Ok t' ->
  exists r r',
    nth_error t i = Some r /\ best_price r = Some m /\
    nth_error t' i = Some r' /\ best_price r' = Some m.
Proof.
  intros Hperm Hi Hnone Hkeep (sm & Hin & Hm) Hall Hloop Hloop'.
  assert (Hsame : same_book row row) by (split; reflexivity).
  assert (Hinv : best_yields_to m row) by (left; exact Hnone).
  destruct (scrape_all_stores_reaches row m i stores df_books t row
              Hloop Hi Hsame Hinv Hkeep Hall)
    as (r & Hr & Hb); [right; exists sm; auto|].
  destruct (scrape_all_stores_reaches row m i stores' df_books t' row
              Hloop' Hi Hsame Hinv)
    as (r' & Hr' & Hb').
  - destruct Hkeep as [Hone | Hlisted]; [left; exact Hone|].
    right. intros su H'. apply Hlisted.
    apply Permutation_in with (l := stores'); [symmetry; exact Hperm | exact H'].
  - intros su H'. apply Hall.
    apply Permutation_in with (l := stores'); [symmetry; exact Hperm | exact H'].
  - right. exists sm. split; [|exact Hm].
    apply Permutation_in with (l := stores); assumption.
  - exists r, r'. auto.
Qed.






Lemma scrape_all_stores_best_price_from (row : Row) (i : nat)
    (stores : list (string * string)) :
  forall df t r,
  loop stores df = Ok t ->
  nth_error df i = Some r ->
  isbn r = isbn row ->
  exists r',
    nth_error t i = Some r' /\
    (best_price r' = best_price r \/
     best_price r' = Some nan \/
     exists q, quoted_by price stores row q /\ best_price r' = Some q).
Proof.
  induction stores as [|su rest IH]; intros df t r Hloop Hi Hisbn.
  - injection Hloop as <-. exists r. auto.
  - destruct (scrape_all_stores_cons _ _ _ _ Hloop) as (df1 & Hp & Hrest).
    destruct (scrape_store_row su df df1 i r Hp Hi) as (_ & _ & Hrow & _).
    pose proof (scrape_best_price_choice requests_get requests_post html_find
                  float_of_string (fst su) (snd su) r) as Hstep.
    pose proof (scrape_keeps_catalog_fields requests_get requests_post
                  html_find float_of_string (fst su) (snd su) r) as [Hi1 _].
    rewrite (get_price_isbn requests_get requests_post html_find
               float_of_string (fst su) (snd su) r row Hisbn) in Hstep.
    set (r1 := fst (scrape (fst su) (snd su) r)) in *.
    assert (Hhead : forall q, price (fst su) (snd su) row = Ok (Some q) ->
                              quoted_by price (su :: rest) row q)
      by (intros q Hq; exists su; split; [left; reflexivity | exact Hq]).
    assert (Htail : forall q, quoted_by price rest row q ->
                              quoted_by price (su :: rest) row q)
      by (intros q (su' & Hin & Hq); exists su';
          split; [right; exact Hin | exact Hq]).
    assert (Hnext : exists r2, nth_error df1 i = Some r2 /\ isbn r2 = isbn row /\
              (best_price r2 = best_price r1 \/ best_price r2 = Some nan)).
    { destruct Hrow as [H1 | (_ & H1)].
      - exists r1. split; [exact H1|]. split; [congruence | auto].
      - eexists. split; [exact H1|]. split; [cbn; congruence | auto]. }
    destruct Hnext as (r2 & Hi2 & Hisbn2 & Hb2).
    destruct (IH df1 t r2 Hrest Hi2 Hisbn2) as (r' & Hr' & Hb').
    exists r'. split; [exact Hr'|].
    destruct Hb' as [Hb' | [Hb' | (q & Hq & Hb')]].
    + rewrite Hb'. destruct Hb2 as [Hb2 | Hb2]; [|auto].
      rewrite Hb2. destruct Hstep as [Hs | (q & Hq & Hs)]; [auto|].
      right. right. exists q. auto.
    + auto.
    + right. right. exists q. auto.
Qed.

(** X8. In a run of the store loop that returns, the best price a row ends
    with is the one it had, or a quote one of the stores gave for the book,
    or NaN; no other number is written. *)
Theorem scrape_all_stores_best_price_is_a_quote
    (stores : list (string * string)) (df_books t : list Row)
    (i : nat) (row : Row) :
  loop stores df_books = Ok t ->
  nth_error df_books i = Some row ->
  exists r',
    nth_error t i = Some r' /\
    (best_price r' = best_price row \/
     best_price r' = Some nan \/
     exists q, quoted_by price stores row q /\ best_price r' = Some q).
Proof.
  intros Hloop Hi.
  exact (scrape_all_stores_best_price_from row i stores df_books t row
           Hloop Hi eq_refl).
Qed.





End TableLoop.

(** C4, as stated, fails. For one book quoted 10.00 and 10.02, the loop ends
    on 10.02 in one order of the two stores and on 10.00 in the other. For a
    second book that Almedina does not have and Presenca quotes at 11.00,
    beside a book Almedina has, the loop ends on NaN when Almedina comes
    first and on 11.00 when Presenca does. *)
Lemma best_price_depends_on_store_order :
  Permutation [Almedina; Presenca] [Presenca; Almedina] /\
  web_scrape_all_stores web_10_00_and_10_02 [Almedina; Presenca] [fresh_book] =
    Ok [mkRow "9789720000000" "Os Maias" 20 (Some 10.02%float)
              (Some "Almedina,Presenca") (Some 50)] /\
  web_scrape_all_stores web_10_00_and_10_02 [Presenca; Almedina] [fresh_book] =
    Ok [mkRow "9789720000000" "Os Maias" 20 (Some 10%float)
              (Some "Presenca,Almedina") (Some 50)] /\
  PrimFloat.eqb 10.02 10 = false /\
  web_scrape_all_stores web_two_books [Almedina; Presenca] catalog_two_books =
    Ok [mkRow "9789720000000" "Os Maias" 20 (Some 10%float)
              (Some "Almedina") (Some 50);
        mkRow "9789720000001" "Mensagem" 12 (Some nan) None None] /\
  web_scrape_all_stores web_two_books [Presenca; Almedina] catalog_two_books =
    Ok [mkRow "9789720000000" "Os Maias" 20 (Some 10%float)
              (Some "Presenca,Almedina") (Some 50);
        mkRow "9789720000001" "Mensagem" 12 (Some 11%float)
              (Some "Presenca") (Some 8)].
Proof.
  split; [apply perm_swap|].
  repeat split; vm_compute; reflexivity.
Qed.

(** The quotes 10.00 and 10.05 (and a store without the book) for the one
    book of a catalog end on 10.00 in the configured order and in its
    reverse. *)
Lemma best_price_order_independent_when_separated_witness :
  exists r r',
    nth_error (match web_scrape_all_stores web_10_00_and_10_05
                       STORE_MAIN_URLS [fresh_book] with
               | Ok t => t
               | Raise _ => []
               end) 0 = Some r /\
    best_price r = Some 10%float /\
    nth_error (match web_scrape_all_stores web_10_00_and_10_05
                       (rev STORE_MAIN_URLS) [fresh_book] with
               | Ok t => t
               | Raise _ => []
               end) 0 = Some r' /\
    best_price r' = Some 10%float.
Proof.
  apply (best_price_order_independent_when_separated
           (web_get web_10_00_and_10_05) (web_post web_10_00_and_10_05)
           (web_find web_10_00_and_10_05) decimal_float
           STORE_MAIN_URLS (rev STORE_MAIN_URLS) [fresh_book] _ _ 0
           fresh_book).
  - apply Permutation_rev.
  - reflexivity.
  - reflexivity.
  - left. reflexivity.
  - exists Almedina. split; [left; reflexivity | vm_compute; reflexivity].
  - intros su [<- | [<- | [<- | []]]].
    + right. exists 10%float. split; [vm_compute; reflexivity|].
      split; [exists 50; vm_compute; reflexivity | left; reflexivity].
    + left. vm_compute. reflexivity.
    + right. exists 10.05%float. split; [vm_compute; reflexivity|].
      split; [exists 50; vm_compute; reflexivity|].
      right. split; vm_compute; reflexivity.
  - vm_compute. reflexivity.
  - vm_compute. reflexivity.
Defined.


(** The second book of the catalog of two after Almedina and Presenca. *)
Lemma scrape_all_stores_best_price_is_a_quote_witness :
  exists r',
    nth_error (match web_scrape_all_stores web_two_books [Almedina; Presenca]
                       catalog_two_books with
               | Ok t => t
               | Raise _ => []
               end) 1 = Some r' /\
    (best_price r' = best_price other_book \/
     best_price r' = Some nan \/
     exists q,
       quoted_by (web_get_price web_two_books) [Almedina; Presenca]
                 other_book q /\
       best_price r' = Some q).
Proof.
  apply (scrape_all_stores_best_price_is_a_quote
           (web_get web_two_books) (web_post web_two_books)
           (web_find web_two_books) decimal_float
           [Almedina; Presenca] catalog_two_books);
    vm_compute; reflexivity.
Defined.


